(** * Model archiver: packaging utilities

    A shallow embedding of [model_archiver/model_packaging_utils.py]
    (class [ModelExportUtils]) and the properties of its archive assembly
    pipeline: target path computation, collision check, special model
    detection, manifest generation, directory filtering, archive writing,
    name validation and temporary file cleanup.

    Python strings are [string]; Python sets of names are [gset string];
    [vars(args)] is a [gmap string string]; exceptions are an [outcome];
    logging calls append to an explicit log; the file system and the ONNX
    converter are explicit arguments. *)

From Stdlib Require Import Ascii String List Bool Arith Lia.
From stdpp Require Import base gmap sets list strings.

Local Open Scope stdpp_scope.

(** ** Python strings *)

Module Py.

(** [s.startswith(p)] *)
Definition startswith (s p : string) : bool := String.prefix p s.

(** [s.endswith(suf)]: some tail of [s] is [suf]. *)
Fixpoint endswith (s suf : string) : bool :=
  if String.eqb s suf then true
  else match s with
       | EmptyString => false
       | String _ s' => endswith s' suf
       end.

(** [s.endswith((a, b, ...))] with a tuple of suffixes. *)
Definition endswith_any (s : string) (sufs : list string) : bool :=
  existsb (endswith s) sufs.

(** [sep.join(parts)] *)
Fixpoint str_join (sep : string) (parts : list string) : string :=
  match parts with
  | [] => ""
  | [p] => p
  | p :: rest => p +:+ sep +:+ str_join sep rest
  end.

(** [s.split(sep)] for a one character separator: [cur] is the part being
    read, kept in reading order. *)
Fixpoint split_go (sep : ascii) (cur : string) (s : string) : list string :=
  match s with
  | EmptyString => [cur]
  | String c s' =>
      if Ascii.eqb c sep then cur :: split_go sep "" s'
      else split_go sep (cur +:+ String c "") s'
  end.
Definition split (sep : ascii) (s : string) : list string := split_go sep "" s.

(** [c in s] for a character. *)
Fixpoint has_char (c : ascii) (s : string) : bool :=
  match s with
  | EmptyString => false
  | String d s' => Ascii.eqb d c || has_char c s'
  end.

End Py.

(** ** [os.path] (POSIX flavour) *)

Module OsPath.

(** [posixpath.join(a, b)]: an absolute [b] replaces [a]; otherwise [b] is
    appended, with a separator unless [a] is empty or already ends in one. *)
Definition join (a b : string) : string :=
  if Py.startswith b "/" then b
  else if String.eqb a "" || Py.endswith a "/" then a +:+ b
  else a +:+ "/" +:+ b.

(** [posixpath.join(a, b, c)] folds [join] from the left. *)
Definition join3 (a b c : string) : string := join (join a b) c.

(** Components of a relative entry name, [name.split('/')]. *)
Definition components (name : string) : list string := Py.split "/" name.

(** [os.path.basename] of an entry name: what follows the last separator. *)
Definition basename (name : string) : string := List.last (components name) "".

(** The directories an entry name lies under. *)
Definition dirnames (name : string) : list string := List.removelast (components name).

End OsPath.

(** ** Exceptions, outcomes and the log *)

(** Arguments substituted into a message template. *)
Inductive fmt_arg : Type :=
| FStr (s : string)
| FInt (n : nat)
| FList (l : list string).

Inductive exn : Type :=
| ModelArchiverError (template : string) (args : list fmt_arg)
| OSError (path : string)
| IOError (path : string)
| AttributeError (attr : string).

Inductive outcome (A : Type) : Type :=
| Return (a : A)
| Raise (e : exn).
Arguments Return {A} a.
Arguments Raise {A} e.

Inductive level : Type := Debug | Warning | Error.

Record log_record : Type := Log { lvl : level; fmt : string; fargs : list string }.

(** ** Module constants *)

Definition MODEL_ARCHIVE_EXTENSION : string := ".mar".
Definition TAR_GZ_EXTENSION : string := ".tar.gz".
Definition MODEL_ARCHIVE_VERSION : string := "1.0".
Definition MANIFEST_FILE_NAME : string := "MANIFEST.json".
Definition MAR_INF : string := "MAR-INF".
Definition ONNX_TYPE : string := ".onnx".

(** ** Target path *)

(** [get_archive_export_path]: every format other than ["default"] gets the
    tar.gz extension. *)
Definition get_archive_export_path
    (export_file_path model_name archive_format : string) : string :=
  OsPath.join export_file_path
    (model_name +:+ (if String.eqb archive_format "default"
                     then MODEL_ARCHIVE_EXTENSION
                     else TAR_GZ_EXTENSION)).

(** ** Collision check *)

Section CollisionGuard.

(** [os.path.exists] on the file system the check runs against, and
    [os.getcwd()]. *)
Variable path_exists : string → bool.
Variable getcwd : string.

Definition ALREADY_EXISTS_MSG : string :=
  "%s already exists." +:+ String "010" "" +:+
  "Please specify --force/-f option to overwrite the model archive " +:+
  "output file." +:+ String "010" "" +:+
  "See -h/--help for more details.".

(** [check_mar_already_exists]: [export_file_path] is [None] when the caller
    passed Python's [None]. Returns the log and the outcome. *)
Definition check_mar_already_exists
    (model_name : string) (export_file_path : option string)
    (overwrite : bool) (archive_format : string)
  : list log_record * outcome string :=
  let export_file_path :=
    match export_file_path with None => getcwd | Some p => p end in
  let export_file :=
    get_archive_export_path export_file_path model_name archive_format in
  if path_exists export_file then
    if overwrite then
      ([Log Warning "Overwriting %s ..." [export_file]], Return export_file_path)
    else
      ([], Raise (ModelArchiverError (ALREADY_EXISTS_MSG +:+ export_file) []))
  else ([], Return export_file_path).

End CollisionGuard.

(** ** The outcome monad *)

Global Instance outcome_bind : MBind outcome := fun A B k m =>
  match m with
  | Return a => k a
  | Raise e => Raise e
  end.

Global Instance outcome_ret : MRet outcome := fun A a => Return a.

(** ** Special model types *)

(** ['%s' % v] for a value that may be Python's [None]. *)
Definition percent_s (v : option string) : string :=
  match v with
  | Some s => s
  | None => "None"
  end.

Definition MULTIPLE_FILES_MSG : string :=
  "model-archiver expects only one {} file in the folder." +:+
  " Found {} files {} in model-path.".

(** [find_unique]: [files] is the Python set, iterated in the order
    [elements] gives. Python fixes no iteration order for a set; the
    properties below take the matches as a collection, not in an order. *)
Definition find_unique (files : gset string) (suffix : string)
  : outcome (option string) :=
  let matches := filter (fun f => Py.endswith f suffix = true) (elements files) in
  let count := length matches in
  match matches with
  | [] => Return None
  | [f] => Return (Some f)
  | _ => Raise (ModelArchiverError MULTIPLE_FILES_MSG
                  [FStr suffix; FInt count; FList matches])
  end.

(** One call of the converter: [(model_path, onnx_file, model_name)]. *)
Definition conversion : Type := string * string * option string.

Section ExclusionResolver.

(** What the libraries behind [convert_onnx_model] do (importing [mxnet]
    and [onnx], loading the model, rewriting [signature.json], writing the
    symbol and parameter files): [None] when every step succeeds, or the
    exception one of them raises. *)
Variable onnx_backend : string → string → option string → option exn.

(** [convert_onnx_model]: the two file names it returns are built from the
    model name alone. *)
Definition convert_onnx_model
    (model_path onnx_file : string) (model_name : option string)
  : outcome (string * string) :=
  let symbol_file := percent_s model_name +:+ "-symbol.json" in
  let params_file := percent_s model_name +:+ "-0000.params" in
  match onnx_backend model_path onnx_file model_name with
  | Some e => Raise e
  | None => Return (symbol_file, params_file)
  end.

(** [check_custom_model_types]: [listing] is [os.listdir(model_path)].
    Returns the converter calls made, the log, and
    [(temp_files, files_to_exclude)]. *)
Definition check_custom_model_types
    (listing : list string) (model_path : string) (model_name : option string)
  : list conversion * list log_record * outcome (list string * list string) :=
  let files_set : gset string := list_to_set listing in
  match find_unique files_set ONNX_TYPE with
  | Raise e => ([], [], Raise e)
  | Return None => ([], [], Return ([], []))
  | Return (Some onnx_file) =>
      let calls := [(model_path, onnx_file, model_name)] in
      let log :=
        [Log Debug "Found ONNX files. Converting ONNX file to model archive..." []] in
      match convert_onnx_model model_path onnx_file model_name with
      | Raise e => (calls, log, Raise e)
      | Return (symbol_file, params_file) =>
          (calls, log,
           Return ([] ++ [OsPath.join model_path symbol_file]
                      ++ [OsPath.join model_path params_file],
                   [] ++ [onnx_file]))
      end
  end.

End ExclusionResolver.

(** ** Name validation *)

Definition in_range (lo hi : nat) (c : ascii) : bool :=
  (lo <=? nat_of_ascii c) && (nat_of_ascii c <=? hi).

(** The class [[A-Za-z0-9]]. *)
Definition alnum (c : ascii) : bool :=
  in_range 65 90 c || in_range 97 122 c || in_range 48 57 c.

(** The class [[A-Za-z0-9_\-.]]. *)
Definition name_char (c : ascii) : bool :=
  alnum c || Ascii.eqb c "_" || Ascii.eqb c "-" || Ascii.eqb c ".".

Definition NEWLINE : string := String "010" "".

(** Python's [$] without [re.MULTILINE]: at the end of the string, and also
    just before a newline that ends the string. *)
Definition dollar (rest : string) : bool :=
  String.eqb rest "" || String.eqb rest NEWLINE.

(** [[A-Za-z0-9_\-.]*$] from the current position: the star takes one more
    character when that leads to a match, and otherwise gives way to [$]. *)
Fixpoint star_dollar (rest : string) : bool :=
  match rest with
  | EmptyString => dollar rest
  | String c rest' => (name_char c && star_dollar rest') || dollar rest
  end.

(** [re.match(r'^[A-Za-z0-9][A-Za-z0-9_\-.]*$', s)] as a truth value. *)
Definition re_match_model_name (s : string) : bool :=
  match s with
  | EmptyString => false
  | String c rest => alnum c && star_dollar rest
  end.

Definition INVALID_NAME_MSG : string :=
  "Model name contains special characters." +:+ NEWLINE +:+
  "The allowed regular expression filter for model " +:+
  "name is: ^[A-Za-z0-9][A-Za-z0-9_\-.]*$".

Definition check_model_name_regex_or_exit (model_name : string) : outcome unit :=
  if negb (re_match_model_name model_name)
  then Raise (ModelArchiverError INVALID_NAME_MSG [])
  else Return tt.

(** The naming policy in the words of the specification: the first
    character is alphanumeric and every other character is alphanumeric,
    ['_'], ['-'] or ['.']. *)
Definition naming_policy (s : string) : bool :=
  match s with
  | EmptyString => false
  | String c rest => alnum c && forallb name_char (list_ascii_of_string rest)
  end.

(** ** Cleanup *)

(** What a path names: [RegularFile] stands for whatever [os.remove]
    deletes, [Directory] for a directory, which it refuses. One path is one
    name; two spellings of a path are two keys. *)
Inductive node : Type := RegularFile | Directory.

(** [os.remove(f)]: deletes a regular file and raises for a missing path or
    a directory. *)
Definition os_remove (f : string) (fs : gmap string node)
  : outcome (gmap string node) :=
  match fs !! f with
  | Some RegularFile => Return (delete f fs)
  | Some Directory => Raise (OSError f)
  | None => Raise (OSError f)
  end.

(** [clean_temp_files]: the file system when the loop stops, and how it
    stops. *)
Fixpoint clean_temp_files (temp_files : list string) (fs : gmap string node)
  : gmap string node * outcome unit :=
  match temp_files with
  | [] => (fs, Return tt)
  | f :: rest =>
      match os_remove f fs with
      | Return fs' => clean_temp_files rest fs'
      | Raise e => (fs, Raise e)
      end
  end.

(** ** Manifest components *)

(** JSON values as far as a manifest needs them. *)
#[warnings="-register-all"]
Inductive json : Type :=
| JStr (s : string)
| JObj (fields : list (string * json)).

Module Json.

(** The double quote character, as a string. *)
Definition DQUOTE : string := String "034" "".

Definition escape_char (c : ascii) : string :=
  if Ascii.eqb c "034" then "\" +:+ DQUOTE
  else if Ascii.eqb c "\" then "\\"
  else if Ascii.eqb c "010" then "\n"
  else String c "".

Fixpoint escape (s : string) : string :=
  match s with
  | EmptyString => ""
  | String c s' => escape_char c +:+ escape s'
  end.

Definition quote (s : string) : string := DQUOTE +:+ escape s +:+ DQUOTE.

Fixpoint spaces (n : nat) : string :=
  match n with
  | O => ""
  | S n' => " " +:+ spaces n'
  end.

(** Indented text with two spaces per level, one member per line, members
    in the order of the object. *)
Fixpoint dumps_at (depth : nat) (j : json) : string :=
  match j with
  | JStr s => quote s
  | JObj [] => "{}"
  | JObj fields =>
      "{" +:+ NEWLINE +:+
      Py.str_join ("," +:+ NEWLINE)
        (List.map (fun kv =>
                     spaces (2 * S depth) +:+ quote (fst kv) +:+ ": " +:+
                     dumps_at (S depth) (snd kv)) fields) +:+
      NEWLINE +:+ spaces (2 * depth) +:+ "}"
  end.

Definition dumps (j : json) : string := dumps_at 0 j.

(** The member names of an object. *)
Definition keys (j : json) : list string :=
  match j with
  | JStr _ => []
  | JObj fields => List.map fst fields
  end.

End Json.

Module Components.

(** Modelled from the spec: the classes [Publisher], [Engine] and [Model]
    of [manifest_components], which are imported by the packaging
    utilities and not part of them. The specification gives their
    serialized shapes: [{"author", "email"}], [{"engineName"}] and
    [{"modelName", "handler"}]. *)
Record Publisher : Type := { author : string; email : string }.
Record Engine : Type := { engine_name : string }.
Record Model : Type := { model_name : string; handler : string }.

Definition publisher_to_dict (p : Publisher) : json :=
  JObj [("author", JStr (author p)); ("email", JStr (email p))].
Definition engine_to_dict (e : Engine) : json :=
  JObj [("engineName", JStr (engine_name e))].
Definition model_to_dict (m : Model) : json :=
  JObj [("modelName", JStr (model_name m)); ("handler", JStr (handler m))].

(** Modelled from the spec: the class [Manifest] of [manifest_components].
    The specification makes the builder a pure function of the model
    identity, the handler, the runtime and the optional engine and
    publisher, so the record holds these and nothing else. The
    specification's JSON shape also names a [createdOn] member; none of the
    inputs determines it and the packaging utilities read no clock, so it is
    not part of the record. *)
Record Manifest : Type := {
  runtime : string;
  model : Model;
  engine : option Engine;
  publisher : option Publisher
}.

Definition option_member {A : Type} (key : string) (f : A → json) (o : option A)
  : list (string * json) :=
  match o with
  | Some a => [(key, f a)]
  | None => []
  end.

(** Modelled from the spec: the manifest as a JSON object in the canonical
    field order [runtime], [model], [engine]?, [publisher]?,
    [archiverVersion], the optional members left out when not supplied. *)
Definition manifest_to_dict (m : Manifest) : json :=
  JObj ([("runtime", JStr (runtime m));
         ("model", model_to_dict (model m))]
        ++ option_member "engine" engine_to_dict (engine m)
        ++ option_member "publisher" publisher_to_dict (publisher m)
        ++ [("archiverVersion", JStr MODEL_ARCHIVE_VERSION)]).

(** Modelled from the spec: [str(manifest)], the canonical indented text
    form of the manifest. *)
Definition manifest_str (m : Manifest) : string := Json.dumps (manifest_to_dict m).

End Components.

(** ** Manifest generation *)

(** [args.name] on the namespace whose [vars] is [arg_dict]. *)
Definition getattr (arg_dict : gmap string string) (name : string) : outcome string :=
  match arg_dict !! name with
  | Some v => Return v
  | None => Raise (AttributeError name)
  end.

Definition generate_publisher (publisherargs : gmap string string)
  : outcome Components.Publisher :=
  a ← getattr publisherargs "author";
  e ← getattr publisherargs "email";
  mret {| Components.author := a; Components.email := e |}.

Definition generate_engine (engineargs : gmap string string)
  : outcome Components.Engine :=
  n ← getattr engineargs "engine";
  mret {| Components.engine_name := n |}.

Definition generate_model (modelargs : gmap string string)
  : outcome Components.Model :=
  n ← getattr modelargs "model_name";
  h ← getattr modelargs "handler";
  mret {| Components.model_name := n; Components.handler := h |}.

(** [key in arg_dict] *)
Definition has_key (arg_dict : gmap string string) (key : string) : bool :=
  bool_decide (is_Some (arg_dict !! key)).

(** [generate_manifest_json]: [arg_dict] is [vars(args)]. *)
Definition generate_manifest_json (arg_dict : gmap string string)
  : outcome string :=
  publisher ← (if has_key arg_dict "author" && has_key arg_dict "email"
               then p ← generate_publisher arg_dict; mret (Some p)
               else mret None);
  engine ← (if has_key arg_dict "engine"
            then e ← generate_engine arg_dict; mret (Some e)
            else mret None);
  model ← generate_model arg_dict;
  runtime ← getattr arg_dict "runtime";
  let manifest :=
    {| Components.runtime := runtime;
       Components.model := model;
       Components.engine := engine;
       Components.publisher := publisher |} in
  mret (Components.manifest_str manifest).

(** ** Directory and file filters *)

Definition directory_filter (directory : string) (unwanted_dirs : gset string) : bool :=
  if bool_decide (directory ∈ unwanted_dirs) then false
  else if Py.startswith directory "." then false
  else true.

Definition UNWANTED_SUFFIXES : list string := [".pyc"; ".DS_Store"; ".mar"].

(** [file_filter] adds the manifest name to the set it is given; the set is
    shared with the caller, so the grown set is returned with the verdict. *)
Definition file_filter (current_file : string) (files_to_exclude : gset string)
  : bool * gset string :=
  let files_to_exclude := {[ "MANIFEST.json" ]} ∪ files_to_exclude in
  if bool_decide (current_file ∈ files_to_exclude) then (false, files_to_exclude)
  else if Py.endswith_any current_file UNWANTED_SUFFIXES then (false, files_to_exclude)
  else (true, files_to_exclude).

(** ** The source tree and the container *)

(** A directory as [os.walk] lists it: the names of its files, and its
    subdirectories with their contents, both in listing order. *)
#[warnings="-register-all"]
Inductive tree : Type :=
| Dir (files : list string) (subdirs : list (string * tree)).

(** Where the bytes of an entry come from. *)
Inductive payload : Type :=
| FromFile (file_path : string)
| FromText (text : string).

Record entry : Type := Entry { arcname : string; data : payload }.

(** The archive written at [mar_path]. *)
Record archive_file : Type := Archive { mar_path : string; entries : list entry }.

(** ** Walking the source directory *)

(** [[f for f in files if file_filter(f, files_to_exclude)]] *)
Fixpoint filter_files (files : list string) (files_to_exclude : gset string)
  : list string * gset string :=
  match files with
  | [] => ([], files_to_exclude)
  | f :: rest =>
      let (keep, files_to_exclude) := file_filter f files_to_exclude in
      let (kept, files_to_exclude) := filter_files rest files_to_exclude in
      (if keep then f :: kept else kept, files_to_exclude)
  end.

(** [os.path.relpath(os.path.join(root, f), path)] where [root] is the
    directory [os.walk] reached from [path] through the names [rel]. *)
Definition relpath_below (rel : list string) (f : string) : string :=
  Py.str_join "/" (rel ++ [f]).

(** The body of the loop over the kept files of one directory: the entry
    as the code hands it to the container, under the name it passes. *)
Definition add_file (archive_format model_name root : string) (rel : list string)
    (f : string) : entry :=
  let file_path := OsPath.join root f in
  if String.eqb archive_format "tgz"
  then Entry (OsPath.join model_name (relpath_below rel f)) (FromFile file_path)
  else Entry (relpath_below rel f) (FromFile file_path).

(** One directory of the walk and everything below it. [os.walk] yields the
    directory, the loop body prunes both lists and writes the kept files,
    and the walk then enters the subdirectories that are left, in order. *)
Fixpoint walk_dir (archive_format model_name root : string) (rel : list string)
    (t : tree) (st : gset string * list entry) {struct t}
  : gset string * list entry :=
  match t with
  | Dir files subdirs =>
      let unwanted_dirs : gset string := {[ "__MACOSX"; "__pycache__" ]} in
      let (kept, files_to_exclude) := filter_files files (fst st) in
      let dst := snd st ++ List.map (add_file archive_format model_name root rel) kept in
      (fix walk_subdirs (l : list (string * tree)) (st : gset string * list entry) :=
         match l with
         | [] => st
         | (d, sub) :: l' =>
             if directory_filter d unwanted_dirs
             then walk_subdirs l'
                    (walk_dir archive_format model_name (OsPath.join root d)
                       (rel ++ [d]) sub st)
             else walk_subdirs l' st
         end) subdirs (files_to_exclude, dst)
  end.

(** [archive_dir]: [src] is the content of [path]; the result is the set and
    the container as the call leaves them. *)
Definition archive_dir (path : string) (src : tree) (dst : list entry)
    (files_to_exclude : gset string) (archive_format model_name : string)
  : gset string * list entry :=
  walk_dir archive_format model_name path [] src (files_to_exclude, dst).

(** ** Archiving *)

Definition SAVE_FAILED_MSG : string :=
  "Failed to save the model-archive to model-path " +:+ Json.DQUOTE +:+ "%s" +:+
  Json.DQUOTE +:+ ". " +:+ "Check the file permissions and retry.".

Section ArchiveWriter.

(** Whether the archive file at a path can be opened for writing. *)
Variable can_write : string → bool.

(** [archive]: [src] is the content of [model_path]. Returns the log and
    either the archive written, [None] when nothing was written, or the
    exception raised. Of the failures the handlers catch, the one modelled
    is that the archive file cannot be opened for writing. *)
Definition archive (export_file model_name model_path : string) (src : tree)
    (files_to_exclude : list string) (manifest archive_format : string)
  : list log_record * outcome (option archive_file) :=
  let mar_path := get_archive_export_path export_file model_name archive_format in
  if String.eqb archive_format "default" then
    if can_write mar_path then
      let z := snd (archive_dir model_path src [] (list_to_set files_to_exclude)
                      archive_format model_name) in
      let z := z ++ [Entry (OsPath.join MAR_INF MANIFEST_FILE_NAME) (FromText manifest)] in
      ([], Return (Some (Archive mar_path z)))
    else ([Log Error SAVE_FAILED_MSG [export_file]], Raise (IOError mar_path))
  else if String.eqb archive_format "tgz" then
    if can_write mar_path then
      let z := snd (archive_dir model_path src [] (list_to_set files_to_exclude)
                      archive_format model_name) in
      let tar_manifest := OsPath.join3 model_name MAR_INF MANIFEST_FILE_NAME in
      let z := z ++ [Entry tar_manifest (FromText manifest)] in
      ([], Return (Some (Archive mar_path z)))
    else ([Log Error SAVE_FAILED_MSG [export_file]], Raise (IOError mar_path))
  else ([Log Error "Unknown format %s" [archive_format]], Return None).

End ArchiveWriter.

(** ** Input validation *)

Definition EXPORT_PATH_MSG : string :=
  "Given export-path {} is not a directory. " +:+
  "Point to a valid export-path directory.".

Definition MODEL_PATH_MSG : string :=
  "Given model-path {} is not a valid directory. " +:+
  "Point to a valid model-path directory.".

Section PathValidator.

(** [os.path.isdir] on the file system the validation runs against, and
    [os.path.abspath]. *)
Variable isdir : string → bool.
Variable abspath : string → string.

(** [validate_inputs]: the name first, then the export path, then the model
    path; each message is formatted with the path as it was given. *)
Definition validate_inputs (model_path model_name export_path : string)
  : outcome unit :=
  _ ← check_model_name_regex_or_exit model_name;
  if negb (isdir (abspath export_path))
  then Raise (ModelArchiverError EXPORT_PATH_MSG [FStr export_path])
  else if negb (isdir (abspath model_path))
  then Raise (ModelArchiverError MODEL_PATH_MSG [FStr model_path])
  else Return tt.

End PathValidator.

(** * Specification vocabulary and auxiliary definitions *)

(** ** Special model files *)

(** A name of the listing with the special extension. *)
Definition is_onnx (f : string) : Prop := Py.endswith f ONNX_TYPE = true.

(** ** Sample inputs *)

(** A file system with the two files a conversion leaves behind and one
    directory. *)
Definition sample_fs : gmap string node :=
  <["/src/m-symbol.json" := RegularFile]>
    (<["/src/m-0000.params" := RegularFile]> (<["/src/lib" := Directory]> ∅)).

(** ** Manifest members *)

(** The members the generated manifest has for the optional sections. *)
Definition engine_member (arg_dict : gmap string string) : list (string * json) :=
  match arg_dict !! "engine" with
  | Some name => [("engine", JObj [("engineName", JStr name)])]
  | None => []
  end.

Definition publisher_member (arg_dict : gmap string string) : list (string * json) :=
  match arg_dict !! "author", arg_dict !! "email" with
  | Some a, Some e => [("publisher", JObj [("author", JStr a); ("email", JStr e)])]
  | _, _ => []
  end.

(** A namespace with an engine and an author, and no email. *)
Definition sample_args : gmap string string :=
  <["engine" := "MXNet"]> (<["model_name" := "m"]> (<["handler" := "h:handle"]>
    (<["runtime" := "python"]> (<["author" := "A"]> ∅)))).

(** ** Source trees and entry names *)

(** What a directory listing can hold: a name is not empty and has no
    separator in it. *)
Definition valid_filename (s : string) : bool :=
  negb (String.eqb s "") && negb (Py.has_char "/" s).

(** Every name in the tree is a valid file name. *)
Fixpoint wf_tree (t : tree) : bool :=
  match t with
  | Dir files subdirs =>
      forallb valid_filename files &&
      (fix wf_subdirs (l : list (string * tree)) : bool :=
         match l with
         | [] => true
         | (d, sub) :: l' => valid_filename d && wf_tree sub && wf_subdirs l'
         end) subdirs
  end.

(** [file_at t rel f]: the directory reached from the root of [t] through
    the subdirectory names [rel] lists a file named [f]. *)
Inductive file_at : tree → list string → string → Prop :=
| file_here files subdirs f :
    f ∈ files → file_at (Dir files subdirs) [] f
| file_below files subdirs d sub rel f :
    (d, sub) ∈ subdirs → file_at sub rel f →
    file_at (Dir files subdirs) (d :: rel) f.

(** The filter of the specification, on directory names: not one of the
    unwanted names, and no leading dot. *)
Definition wanted_dir (d : string) : Prop :=
  d ≠ "__MACOSX" ∧ d ≠ "__pycache__" ∧ Py.startswith d "." = false.

(** The filter of the specification, on file names: not the reserved
    manifest name, not an excluded original, and none of the unwanted
    suffixes. *)
Definition wanted_file (excluded : gset string) (f : string) : Prop :=
  f ≠ "MANIFEST.json" ∧ (f ∉ excluded) ∧
  Py.endswith f ".pyc" = false ∧ Py.endswith f ".DS_Store" = false ∧
  Py.endswith f ".mar" = false.

(** The filter-accepted files of a tree: the files reached through wanted
    directories only that are themselves wanted. *)
Definition accepted (excluded : gset string) (t : tree)
    (rel : list string) (f : string) : Prop :=
  file_at t rel f ∧ Forall wanted_dir rel ∧ wanted_file excluded f.

(** An entry name with none of the unwanted suffixes that lies under wanted
    directories only. *)
Definition clean_path (name : string) : Prop :=
  Py.endswith name ".pyc" = false ∧ Py.endswith name ".DS_Store" = false ∧
  Py.endswith name ".mar" = false ∧
  Forall wanted_dir (OsPath.dirnames name).

(** What the filter promises of the name of a packaged file: besides a clean
    path, a base name that is neither the reserved manifest name nor an
    excluded original. *)
Definition clean_name (excluded : gset string) (name : string) : Prop :=
  OsPath.basename name ≠ "MANIFEST.json" ∧
  (OsPath.basename name ∉ excluded) ∧
  clean_path name.

(** ** The walk without its state *)

(** The verdict of [file_filter] as a function of the set it is given. *)
Definition keep (files_to_exclude : gset string) (f : string) : bool :=
  fst (file_filter f files_to_exclude).

(** The entries a walk adds, for a fixed verdict [k] on file names. *)
Fixpoint kept_entries (k : string → bool) (archive_format model_name root : string)
    (rel : list string) (t : tree) {struct t} : list entry :=
  match t with
  | Dir files subdirs =>
      List.map (add_file archive_format model_name root rel) (List.filter k files) ++
      (fix kept_below (l : list (string * tree)) : list entry :=
         match l with
         | [] => []
         | (d, sub) :: l' =>
             (if directory_filter d {[ "__MACOSX"; "__pycache__" ]}
              then kept_entries k archive_format model_name (OsPath.join root d)
                     (rel ++ [d]) sub
              else []) ++ kept_below l'
         end) subdirs
  end.

(** Induction on trees, with the hypothesis for every subdirectory. *)
Fixpoint tree_induction (P : tree → Prop)
    (step : ∀ files subdirs, Forall (fun ds => P (snd ds)) subdirs → P (Dir files subdirs))
    (t : tree) {struct t} : P t :=
  match t with
  | Dir files subdirs =>
      step files subdirs
        ((fix below (l : list (string * tree)) : Forall (fun ds => P (snd ds)) l :=
            match l with
            | [] => @List.Forall_nil _ (fun ds => P (snd ds))
            | ds :: l' =>
                @List.Forall_cons _ (fun ds => P (snd ds)) ds l'
                  (tree_induction P step (snd ds)) (below l')
            end) subdirs)
  end.

(** The loop of [walk_dir] over the subdirectories, on its own. *)
Definition walk_subdirs (archive_format model_name root : string) (rel : list string) :=
  fix walk_subdirs (l : list (string * tree)) (st : gset string * list entry) :=
    match l with
    | [] => st
    | (d, sub) :: l' =>
        if directory_filter d {[ "__MACOSX"; "__pycache__" ]}
        then walk_subdirs l'
               (walk_dir archive_format model_name (OsPath.join root d)
                  (rel ++ [d]) sub st)
        else walk_subdirs l' st
    end.

(** The entries added below the subdirectories of one directory. *)
Definition kept_below (k : string → bool) (archive_format model_name root : string)
    (rel : list string) :=
  fix kept_below (l : list (string * tree)) : list entry :=
    match l with
    | [] => []
    | (d, sub) :: l' =>
        (if directory_filter d {[ "__MACOSX"; "__pycache__" ]}
         then kept_entries k archive_format model_name (OsPath.join root d)
                (rel ++ [d]) sub
         else []) ++ kept_below l'
    end.

(** A source directory with wanted and unwanted files and directories. *)
Definition sample_tree : tree :=
  Dir ["handler.py"; "weights.bin"; "MANIFEST.json"; "old.mar"]
      [("__pycache__", Dir ["x.pyc"] []);
       (".git", Dir ["config"] []);
       ("lib", Dir ["util.py"; "util.pyc"; "net.onnx"] [("deep", Dir ["a.txt"] [])])].

(** ** Paths of the kept files *)

(** The kept files of a tree in the order of the walk, each as the
    subdirectory names leading to it and its name. *)
Fixpoint kept_paths (k : string → bool) (t : tree) {struct t}
  : list (list string * string) :=
  match t with
  | Dir files subdirs =>
      List.map (fun f => ([], f)) (List.filter k files) ++
      (fix paths_below (l : list (string * tree)) : list (list string * string) :=
         match l with
         | [] => []
         | (d, sub) :: l' =>
             (if directory_filter d {[ "__MACOSX"; "__pycache__" ]}
              then List.map (fun p => (d :: fst p, snd p)) (kept_paths k sub)
              else []) ++ paths_below l'
         end) subdirs
  end.

(** The paths below the subdirectories of one directory. *)
Definition paths_below (k : string → bool) :=
  fix paths_below (l : list (string * tree)) : list (list string * string) :=
    match l with
    | [] => []
    | (d, sub) :: l' =>
        (if directory_filter d {[ "__MACOSX"; "__pycache__" ]}
         then List.map (fun p => (d :: fst p, snd p)) (kept_paths k sub)
         else []) ++ paths_below l'
    end.

(** The entry written for one kept path. *)
Definition entry_of (archive_format model_name root : string) (rel : list string)
    (p : list string * string) : entry :=
  add_file archive_format model_name (fold_left OsPath.join (fst p) root)
    (rel ++ fst p) (snd p).

(** What the tgz format makes of an entry of the default format. *)
Definition wrap_entry (model_name : string) (e : entry) : entry :=
  Entry (OsPath.join model_name (arcname e)) (data e).

(** Every listing of the tree holds each name once: no two files, and no
    two subdirectories, of one directory share a name. *)
Fixpoint distinct_names (t : tree) : Prop :=
  match t with
  | Dir files subdirs =>
      NoDup files ∧ NoDup (List.map fst subdirs) ∧
      (fix distinct_below (l : list (string * tree)) : Prop :=
         match l with
         | [] => True
         | (_, sub) :: l' => distinct_names sub ∧ distinct_below l'
         end) subdirs
  end.


(** * Properties *)

(** ** Strings *)

Lemma append_nil_l (s : string) : "" +:+ s = s.
Proof. reflexivity. Qed.

Lemma append_cons (c : ascii) (s t : string) :
  String c s +:+ t = String c (s +:+ t).
Proof. reflexivity. Qed.

Lemma append_nil_r (s : string) : s +:+ "" = s.
Proof.
  induction s as [|c s IH]; [reflexivity|]. by rewrite append_cons, IH.
Qed.

Lemma append_assoc (a b c : string) : (a +:+ b) +:+ c = a +:+ (b +:+ c).
Proof.
  induction a as [|x a IH]; [reflexivity|]. by rewrite !append_cons, IH.
Qed.

Lemma endswith_unfold (s suf : string) :
  Py.endswith s suf =
    if String.eqb s suf then true
    else match s with
         | EmptyString => false
         | String _ s' => Py.endswith s' suf
         end.
Proof. destruct s; reflexivity. Qed.

Lemma endswith_iff (s suf : string) :
  Py.endswith s suf = true ↔ ∃ p, s = p +:+ suf.
Proof.
  induction s as [|c s IH]; rewrite endswith_unfold.
  - destruct (String.eqb "" suf) eqn:E.
    + apply String.eqb_eq in E as <-. split; [intros _; by exists "" | done].
    + apply String.eqb_neq in E. split; [discriminate | intros [p Hp]].
      destruct p; [by rewrite append_nil_l in Hp | by rewrite append_cons in Hp].
  - destruct (String.eqb (String c s) suf) eqn:E.
    + apply String.eqb_eq in E as <-. split; [intros _; by exists "" | done].
    + apply String.eqb_neq in E. rewrite IH. split.
      * intros [p ->]. by exists (String c p).
      * intros [p Hp]. destruct p as [|d p]; [by rewrite append_nil_l in Hp|].
        rewrite append_cons in Hp. injection Hp as _ ->. by exists p.
Qed.

Lemma endswith_append (a b : string) : Py.endswith (a +:+ b) b = true.
Proof. apply endswith_iff. by exists a. Qed.

Lemma has_char_append (c : ascii) (a b : string) :
  Py.has_char c (a +:+ b) = Py.has_char c a || Py.has_char c b.
Proof.
  induction a as [|x a IH]; [reflexivity|].
  rewrite append_cons. simpl. by rewrite IH, orb_assoc.
Qed.

Lemma endswith_has_char (c : ascii) (s suf : string) :
  Py.endswith s suf = true → Py.has_char c suf = true → Py.has_char c s = true.
Proof.
  intros [p ->]%endswith_iff Hc. rewrite has_char_append, Hc. apply orb_true_r.
Qed.

(** ** Target path and collision check *)

(** C8: the target path is the export directory joined with [<name>.mar]
    for the default format and with [<name>.tar.gz] for the tgz format. *)
Theorem get_archive_export_path_by_format (export_dir name : string) :
  get_archive_export_path export_dir name "default"
    = OsPath.join export_dir (name +:+ ".mar") ∧
  get_archive_export_path export_dir name "tgz"
    = OsPath.join export_dir (name +:+ ".tar.gz").
Proof. split; reflexivity. Qed.

(** C5: with a file at the computed target path the check raises, naming
    that path, when [overwrite] is false, and returns with a warning when it
    is true; with no file there it returns whatever [overwrite] is. *)
Theorem check_mar_already_exists_collision
    (path_exists : string → bool) (getcwd name : string)
    (export_dir : option string) (fmt : string) :
  let dir := default getcwd export_dir in
  let target := get_archive_export_path dir name fmt in
  (path_exists target = true →
     (∃ msg,
        check_mar_already_exists path_exists getcwd name export_dir false fmt
          = ([], Raise (ModelArchiverError msg [])) ∧
        Py.endswith msg target = true) ∧
     check_mar_already_exists path_exists getcwd name export_dir true fmt
       = ([Log Warning "Overwriting %s ..." [target]], Return dir)) ∧
  (path_exists target = false →
     ∀ overwrite,
       check_mar_already_exists path_exists getcwd name export_dir overwrite fmt
         = ([], Return dir)).
Proof.
  intros dir target. unfold check_mar_already_exists.
  destruct export_dir as [d|]; simpl in dir; subst dir target.
  all: split; [intros -> | by intros -> overwrite].
  all: split; [|reflexivity].
  all: eexists; split; [reflexivity | apply endswith_append].
Qed.

Lemma check_mar_already_exists_collision_witness :
  (∃ msg,
     check_mar_already_exists (fun p => String.eqb p "/out/m.mar") "/cwd" "m"
         (Some "/out") false "default"
       = ([], Raise (ModelArchiverError msg [])) ∧
     Py.endswith msg "/out/m.mar" = true) ∧
  check_mar_already_exists (fun p => String.eqb p "/out/m.mar") "/cwd" "m"
      (Some "/out") true "default"
    = ([Log Warning "Overwriting %s ..." ["/out/m.mar"]], Return "/out") ∧
  check_mar_already_exists (fun p => String.eqb p "/out/m.mar") "/cwd" "m"
      None true "default"
    = ([], Return "/cwd").
Proof.
  destruct (check_mar_already_exists_collision
              (fun p => String.eqb p "/out/m.mar") "/cwd" "m" (Some "/out") "default")
    as [Hexists _].
  destruct (check_mar_already_exists_collision
              (fun p => String.eqb p "/out/m.mar") "/cwd" "m" None "default")
    as [_ Hfree].
  destruct Hexists as [Hraise Hwarn]; [reflexivity|].
  split; [exact Hraise|]. split; [exact Hwarn|].
  apply Hfree. reflexivity.
Defined.

(** ** Unknown formats *)

(** C10: for a format other than ["default"] and ["tgz"], [archive] raises
    nothing and writes nothing: it logs one error and returns. *)
Theorem archive_unknown_format
    (can_write : string → bool) (export_file name model_path : string)
    (src : tree) (files_to_exclude : list string) (manifest fmt : string) :
  fmt ≠ "default" → fmt ≠ "tgz" →
  archive can_write export_file name model_path src files_to_exclude manifest fmt
    = ([Log Error "Unknown format %s" [fmt]], Return None).
Proof.
  intros H1 H2. unfold archive.
  apply String.eqb_neq in H1, H2. by rewrite H1, H2.
Qed.

Lemma archive_unknown_format_witness :
  archive (fun _ => false) "/out" "m" "/src" (Dir ["a.py"] []) [] "{}" "zip"
    = ([Log Error "Unknown format %s" ["zip"]], Return None).
Proof. apply archive_unknown_format; discriminate. Defined.

(** ** Special model types *)

Section ExclusionResolverFacts.

Variable onnx_backend : string → string → option string → option exn.

(** The matches [find_unique] collects: the names of the listing with the
    suffix, each once. *)
Lemma onnx_matches (listing : list string) :
  let matches := filter is_onnx (elements (list_to_set listing : gset string)) in
  NoDup matches ∧ ∀ x, x ∈ matches ↔ x ∈ listing ∧ is_onnx x.
Proof.
  intros matches. split.
  - apply NoDup_filter, NoDup_elements.
  - intros x. unfold matches.
    rewrite list_elem_of_filter, elem_of_elements, elem_of_list_to_set. tauto.
Qed.

(** C4: one [.onnx] name in the listing gives that name as the only
    excluded original and the converter's two file names, joined to the
    source directory, as temporary files; two or more give the error with
    the extension, the count and the matches; none gives two empty lists
    and no conversion. *)
Theorem check_custom_model_types_cases
    (listing : list string) (model_path : string) (model_name : option string) :
  (∀ f, f ∈ listing → is_onnx f →
     (∀ g, g ∈ listing → is_onnx g → g = f) →
     onnx_backend model_path f model_name = None →
     ∃ log temp_files files_to_exclude,
       check_custom_model_types onnx_backend listing model_path model_name
         = ([(model_path, f, model_name)], log,
            Return (temp_files, files_to_exclude)) ∧
       files_to_exclude = [f] ∧
       temp_files =
         [OsPath.join model_path (percent_s model_name +:+ "-symbol.json");
          OsPath.join model_path (percent_s model_name +:+ "-0000.params")]) ∧
  (∀ f g, f ∈ listing → g ∈ listing → f ≠ g → is_onnx f → is_onnx g →
     ∃ matches,
       check_custom_model_types onnx_backend listing model_path model_name
         = ([], [], Raise (ModelArchiverError MULTIPLE_FILES_MSG
                             [FStr ".onnx"; FInt (length matches); FList matches])) ∧
       2 ≤ length matches ∧
       ∀ x, x ∈ matches ↔ x ∈ listing ∧ is_onnx x) ∧
  ((∀ g, g ∈ listing → ¬ is_onnx g) →
     check_custom_model_types onnx_backend listing model_path model_name
       = ([], [], Return ([], []))).
Proof.
  destruct (onnx_matches listing) as [Hnd Hin]. revert Hnd Hin.
  unfold check_custom_model_types, find_unique. fold (is_onnx).
  generalize (filter is_onnx (elements (list_to_set listing : gset string))).
  intros matches Hnd Hin. split; [|split].
  - intros f Hf Hof Huniq Hok.
    assert (matches = [f]) as ->.
    { destruct matches as [|x [|y rest]].
      - exfalso. eapply not_elem_of_nil, Hin; eauto.
      - f_equal. apply Huniq; apply (Hin x); left.
      - exfalso.
        assert (x = f) as -> by (apply Huniq; apply (Hin x); left).
        assert (y = f) as -> by (apply Huniq; apply (Hin y); right; left).
        apply NoDup_cons in Hnd as [Hx _]. apply Hx. left. }
    unfold convert_onnx_model. rewrite Hok.
    do 3 eexists. split; [reflexivity|]. split; reflexivity.
  - intros f g Hf Hg Hne Hof Hog.
    assert (f ∈ matches) as Hfm by (apply Hin; done).
    assert (g ∈ matches) as Hgm by (apply Hin; done).
    destruct matches as [|x [|y rest]].
    + by apply not_elem_of_nil in Hfm.
    + apply list_elem_of_singleton in Hfm, Hgm. congruence.
    + eexists. split; [reflexivity|]. split; [simpl; lia | done].
  - intros Hnone. destruct matches as [|x rest]; [reflexivity|].
    exfalso. apply (Hnone x); apply (Hin x); left.
Qed.

End ExclusionResolverFacts.

Lemma check_custom_model_types_cases_witness :
  ∃ log temp_files files_to_exclude,
    check_custom_model_types (fun _ _ _ => None)
        ["net.onnx"; "signature.json"] "/src" (Some "m")
      = ([("/src", "net.onnx", Some "m")], log,
         Return (temp_files, files_to_exclude)) ∧
    files_to_exclude = ["net.onnx"] ∧
    temp_files = ["/src/m-symbol.json"; "/src/m-0000.params"].
Proof.
  apply (check_custom_model_types_cases (fun _ _ _ => None)
           ["net.onnx"; "signature.json"] "/src" (Some "m")).
  - left.
  - reflexivity.
  - intros g Hg Ho. apply list_elem_of_In in Hg.
    destruct Hg as [<-|[<-|[]]]; [reflexivity | discriminate Ho].
  - reflexivity.
Defined.

(** ** Name validation *)

Lemma dollar_iff (rest : string) : dollar rest = true ↔ rest = "" ∨ rest = NEWLINE.
Proof.
  unfold dollar. rewrite orb_true_iff, !String.eqb_eq. tauto.
Qed.

Lemma name_char_newline : name_char "010" = false.
Proof. reflexivity. Qed.

Lemma star_dollar_unfold (rest : string) :
  star_dollar rest =
    match rest with
    | EmptyString => dollar rest
    | String c rest' => (name_char c && star_dollar rest') || dollar rest
    end.
Proof. destruct rest; reflexivity. Qed.

(** What the star and the anchor accept: policy characters only, with at
    most one newline after them. *)
Lemma star_dollar_iff (rest : string) :
  star_dollar rest = true ↔
  ∃ t, forallb name_char (list_ascii_of_string t) = true ∧
       (rest = t ∨ rest = t +:+ NEWLINE).
Proof.
  induction rest as [|c rest IH]; rewrite star_dollar_unfold.
  - split; [intros _; exists ""; by split; [|left] | intros _; reflexivity].
  - rewrite orb_true_iff, andb_true_iff, IH, dollar_iff. split.
    + intros [[Hc (t & Ht & Hrest)] | [Hd | Hd]]; [| done |].
      * exists (String c t). split; [simpl; by rewrite Hc|].
        destruct Hrest as [->| ->]; [by left | by right].
      * exists "". split; [reflexivity | by right].
    + intros (t & Ht & Hrest). destruct t as [|d t].
      * destruct Hrest as [Hrest|Hrest]; [discriminate | by right; right].
      * simpl in Ht. apply andb_true_iff in Ht as [Hd Ht].
        left. destruct Hrest as [Hrest|Hrest].
        -- injection Hrest as -> ->. split; [done|]. exists t. by split; [|left].
        -- rewrite append_cons in Hrest. injection Hrest as -> ->.
           split; [done|]. exists t. by split; [|right].
Qed.

(** The validator accepts exactly the policy names and the policy names
    followed by one newline. *)
Lemma check_model_name_regex_or_exit_iff (s : string) :
  check_model_name_regex_or_exit s = Return tt ↔
  naming_policy s = true ∨ ∃ t, s = t +:+ NEWLINE ∧ naming_policy t = true.
Proof.
  unfold check_model_name_regex_or_exit.
  assert (re_match_model_name s = true ↔
          naming_policy s = true ∨ ∃ t, s = t +:+ NEWLINE ∧ naming_policy t = true)
    as <-; [|destruct (re_match_model_name s); simpl; split; congruence].
  destruct s as [|c rest]; simpl.
  - split; [discriminate | intros [?|(t & Ht & Hp)]; [done|]].
    destruct t; [discriminate Ht | by rewrite append_cons in Ht].
  - rewrite !andb_true_iff, star_dollar_iff. split.
    + intros [Hc (t & Ht & [->| ->])]; [left; by split|].
      right. exists (String c t). split; [reflexivity|]. simpl. by rewrite Hc, Ht.
    + intros [[Hc Hr] | (t & Ht & Hp)].
      * split; [done|]. exists rest. by split; [|left].
      * destruct t as [|d t]; [discriminate Hp|].
        rewrite append_cons in Ht. injection Ht as -> ->.
        simpl in Hp. apply andb_true_iff in Hp as [Hc Hr].
        split; [done|]. exists t. by split; [|right].
Qed.

(** Every policy name passes, and the empty string does not. *)
Lemma check_model_name_regex_or_exit_policy (s : string) :
  naming_policy s = true → check_model_name_regex_or_exit s = Return tt.
Proof. intros H. apply check_model_name_regex_or_exit_iff. by left. Qed.

Lemma check_model_name_regex_or_exit_empty :
  check_model_name_regex_or_exit "" = Raise (ModelArchiverError INVALID_NAME_MSG []).
Proof. reflexivity. Qed.

(** C3: validation succeeds on a name that ends in a newline, a character
    outside the policy: [$] also matches before a final newline. *)
Theorem check_model_name_accepts_trailing_newline :
  naming_policy ("a" +:+ NEWLINE) = false ∧
  name_char "010" = false ∧
  check_model_name_regex_or_exit ("a" +:+ NEWLINE) = Return tt.
Proof. repeat split. Qed.

(** ** Cleanup *)

Lemma os_remove_return (f : string) (fs fs' : gmap string node) :
  os_remove f fs = Return fs' → fs !! f = Some RegularFile ∧ fs' = delete f fs.
Proof.
  unfold os_remove. destruct (fs !! f) as [[]|]; [|discriminate..].
  intros [= <-]. done.
Qed.

Lemma os_remove_raise (f : string) (fs : gmap string node) (e : exn) :
  os_remove f fs = Raise e → e = OSError f ∧ fs !! f ≠ Some RegularFile.
Proof.
  unfold os_remove. destruct (fs !! f) as [[]|]; [discriminate|..];
    intros [= <-]; done.
Qed.





(** ** Manifest generation *)

Lemma has_key_lookup (arg_dict : gmap string string) (key : string) :
  has_key arg_dict key = match arg_dict !! key with Some _ => true | None => false end.
Proof.
  unfold has_key. destruct (arg_dict !! key) eqn:E.
  - apply bool_decide_eq_true. eauto.
  - apply bool_decide_eq_false. by intros [? ?].
Qed.

(** The manifest text, whenever the namespace has the three attributes
    every manifest reads. *)
Lemma generate_manifest_json_text
    (arg_dict : gmap string string) (name handler runtime : string) :
  arg_dict !! "model_name" = Some name →
  arg_dict !! "handler" = Some handler →
  arg_dict !! "runtime" = Some runtime →
  generate_manifest_json arg_dict =
    Return (Json.dumps
              (JObj ([("runtime", JStr runtime);
                      ("model", JObj [("modelName", JStr name);
                                      ("handler", JStr handler)])]
                     ++ engine_member arg_dict
                     ++ publisher_member arg_dict
                     ++ [("archiverVersion", JStr "1.0")]))).
Proof.
  intros Hn Hh Hr.
  unfold generate_manifest_json, generate_publisher, generate_engine,
    generate_model, getattr, engine_member, publisher_member.
  rewrite !has_key_lookup, Hn, Hh, Hr.
  destruct (arg_dict !! "author"), (arg_dict !! "email"), (arg_dict !! "engine");
    reflexivity.
Qed.

(** C7: the serialized manifest has an engine member exactly when the
    namespace has an engine name, and a publisher member, holding author and
    email, exactly when it has both of those; otherwise the member is left
    out of the serialized object. *)
Theorem generate_manifest_json_optional_sections
    (arg_dict : gmap string string) :
  is_Some (arg_dict !! "model_name") →
  is_Some (arg_dict !! "handler") →
  is_Some (arg_dict !! "runtime") →
  ∃ manifest,
    generate_manifest_json arg_dict = Return (Json.dumps manifest) ∧
    ("engine" ∈ Json.keys manifest ↔ is_Some (arg_dict !! "engine")) ∧
    ("publisher" ∈ Json.keys manifest ↔
       is_Some (arg_dict !! "author") ∧ is_Some (arg_dict !! "email")) ∧
    (∀ name, arg_dict !! "engine" = Some name →
       ("engine", JObj [("engineName", JStr name)]) ∈
         match manifest with JObj fields => fields | JStr _ => [] end) ∧
    (∀ a e, arg_dict !! "author" = Some a → arg_dict !! "email" = Some e →
       ("publisher", JObj [("author", JStr a); ("email", JStr e)]) ∈
         match manifest with JObj fields => fields | JStr _ => [] end).
Proof.
  intros [name Hn] [handler Hh] [runtime Hr].
  eexists. split; [by apply generate_manifest_json_text|].
  unfold engine_member, publisher_member, Json.keys.
  destruct (arg_dict !! "author") as [a|], (arg_dict !! "email") as [e|],
    (arg_dict !! "engine") as [g|]; simpl.
  all: rewrite !elem_of_cons, !elem_of_nil, !is_Some_alt.
  all: split; [intuition congruence|]; split; [intuition congruence|].
  all: split; intros; simplify_eq.
  all: rewrite !elem_of_cons; tauto.
Qed.

Lemma generate_manifest_json_optional_sections_witness :
  ∃ manifest,
    generate_manifest_json sample_args = Return (Json.dumps manifest) ∧
    "engine" ∈ Json.keys manifest ∧
    ¬ "publisher" ∈ Json.keys manifest.
Proof.
  destruct (generate_manifest_json_optional_sections sample_args)
    as (manifest & Htext & Hengine & Hpublisher & _); [by eexists..|].
  exists manifest. split; [exact Htext|]. split.
  - apply Hengine. by eexists.
  - intros [_ [e He]]%Hpublisher. discriminate He.
Defined.



(** ** Paths as strings *)

Lemma has_char_same (c : ascii) (s : string) : Py.has_char c (String c s) = true.
Proof. simpl. by rewrite Ascii.eqb_refl. Qed.

(** A suffix without the separator lies within the last component. *)
Lemma endswith_after_char (c : ascii) (a f suf : string) :
  Py.has_char c suf = false →
  Py.endswith (a +:+ String c f) suf = Py.endswith f suf.
Proof.
  intros Hsuf. induction a as [|x a IH].
  - rewrite append_nil_l, (endswith_unfold (String c f)).
    destruct (String.eqb (String c f) suf) eqn:E; [|reflexivity].
    apply String.eqb_eq in E as <-. by rewrite has_char_same in Hsuf.
  - rewrite append_cons, (endswith_unfold (String x _)), IH.
    destruct (String.eqb _ suf) eqn:E; [|reflexivity].
    apply String.eqb_eq in E as <-. simpl in Hsuf.
    rewrite has_char_append, has_char_same, orb_true_r, orb_true_r in Hsuf.
    discriminate Hsuf.
Qed.

Lemma split_go_no_sep (sep : ascii) (s cur : string) :
  Py.has_char sep s = false → Py.split_go sep cur s = [cur +:+ s].
Proof.
  revert cur. induction s as [|d s IH]; intros cur; simpl.
  - intros _. by rewrite append_nil_r.
  - intros [Hd Hs]%orb_false_iff. rewrite Hd, (IH _ Hs), append_assoc.
    reflexivity.
Qed.

Lemma split_go_sep (sep : ascii) (a b cur : string) :
  Py.has_char sep a = false →
  Py.split_go sep cur (a +:+ String sep b) = (cur +:+ a) :: Py.split_go sep "" b.
Proof.
  revert cur. induction a as [|d a IH]; intros cur.
  - intros _. rewrite append_nil_l, append_nil_r. simpl.
    by rewrite Ascii.eqb_refl.
  - simpl. intros [Hd Ha]%orb_false_iff.
    rewrite Hd, (IH _ Ha), append_assoc. reflexivity.
Qed.

Lemma str_join_cons (sep p q : string) (rest : list string) :
  Py.str_join sep (p :: q :: rest) = p +:+ sep +:+ Py.str_join sep (q :: rest).
Proof. reflexivity. Qed.

(** Splitting a joined path gives back its parts. *)
Lemma components_str_join (parts : list string) :
  parts ≠ [] →
  Forall (fun p => Py.has_char "/" p = false) parts →
  OsPath.components (Py.str_join "/" parts) = parts.
Proof.
  unfold OsPath.components, Py.split.
  induction parts as [|p [|q rest] IH]; intros Hne Hall; [done|..].
  - simpl. apply Forall_cons in Hall as [Hp _].
    by rewrite (split_go_no_sep _ _ _ Hp).
  - apply Forall_cons in Hall as [Hp Hrest].
    rewrite str_join_cons.
    change ("/" +:+ Py.str_join "/" (q :: rest))
      with (String "/" (Py.str_join "/" (q :: rest))).
    rewrite (split_go_sep _ _ _ _ Hp), IH; done.
Qed.


(** ** File names *)

Lemma valid_filename_no_sep (s : string) :
  valid_filename s = true → Py.has_char "/" s = false.
Proof. by intros [_ ?%negb_true_iff]%andb_true_iff. Qed.

Lemma valid_filename_not_absolute (s x : string) :
  valid_filename s = true → Py.startswith (s +:+ x) "/" = false.
Proof.
  destruct s as [|c s]; [discriminate|].
  intros Hs%valid_filename_no_sep. simpl in Hs.
  apply orb_false_iff in Hs as [Hc _]. apply Ascii.eqb_neq in Hc.
  rewrite append_cons. unfold Py.startswith.
  destruct (String.prefix _ _) eqn:E; [|reflexivity].
  apply String.prefix_correct in E. simpl in E. by injection E as -> _.
Qed.

Lemma str_join_not_absolute (p : string) (rest : list string) :
  valid_filename p = true → Py.startswith (Py.str_join "/" (p :: rest)) "/" = false.
Proof.
  intros Hp. destruct rest as [|q rest].
  - simpl. rewrite <- (append_nil_r p). by apply valid_filename_not_absolute.
  - rewrite str_join_cons. by apply valid_filename_not_absolute.
Qed.

(** [join] of a directory name and a relative path puts one separator
    between them. *)
Lemma join_relative (a b : string) :
  a ≠ "" → Py.endswith a "/" = false → Py.startswith b "/" = false →
  OsPath.join a b = a +:+ "/" +:+ b.
Proof.
  intros Ha Hsep Hb. unfold OsPath.join. rewrite Hb, Hsep.
  apply String.eqb_neq in Ha. by rewrite Ha.
Qed.

Lemma no_sep_not_endswith (a : string) :
  Py.has_char "/" a = false → Py.endswith a "/" = false.
Proof.
  intros Ha. destruct (Py.endswith a "/") eqn:E; [|reflexivity].
  apply (endswith_has_char "/") in E; [congruence | reflexivity].
Qed.

(** The manifest path of the tgz format. *)
Lemma join3_manifest (N : string) :
  N ≠ "" → Py.endswith N "/" = false →
  OsPath.join3 N MAR_INF MANIFEST_FILE_NAME = N +:+ "/MAR-INF/MANIFEST.json".
Proof.
  intros HN Hsep. unfold OsPath.join3, MAR_INF, MANIFEST_FILE_NAME.
  rewrite (join_relative N) by done.
  rewrite join_relative, append_assoc; [reflexivity| |..|reflexivity].
  - destruct N; [done | by rewrite append_cons].
  - change (N +:+ "/" +:+ "MAR-INF") with (N +:+ ("/MAR-IN" +:+ String "F" "")).
    rewrite <- append_assoc. by rewrite endswith_after_char.
Qed.

(** ** The filters *)

Lemma directory_filter_iff (d : string) :
  directory_filter d {[ "__MACOSX"; "__pycache__" ]} = true ↔ wanted_dir d.
Proof.
  unfold directory_filter, wanted_dir. case_bool_decide as Hin.
  - split; [discriminate|]. intros (H1 & H2 & _).
    apply elem_of_union in Hin as [Hin|Hin]; by apply elem_of_singleton in Hin.
  - assert (d ≠ "__MACOSX" ∧ d ≠ "__pycache__") as [H1 H2].
    { split; intros ->; apply Hin.
      - apply elem_of_union_l. by apply elem_of_singleton.
      - apply elem_of_union_r. by apply elem_of_singleton. }
    destruct (Py.startswith d "."); split; try done.
    by intros (_ & _ & ?).
Qed.

Lemma file_filter_spec (f : string) (S : gset string) :
  file_filter f S = (keep S f, {[ "MANIFEST.json" ]} ∪ S).
Proof.
  unfold keep, file_filter. case_bool_decide; [reflexivity|].
  by destruct (Py.endswith_any f UNWANTED_SUFFIXES).
Qed.

Lemma keep_iff (S : gset string) (f : string) :
  keep S f = true ↔ wanted_file S f.
Proof.
  unfold keep, file_filter, wanted_file. case_bool_decide as Hin; simpl.
  - split; [discriminate|]. intros (H1 & H2 & _).
    apply elem_of_union in Hin as [Hin|Hin]; [by apply elem_of_singleton in Hin|done].
  - assert (f ≠ "MANIFEST.json" ∧ f ∉ S) as [H1 H2].
    { split; [intros -> | intros HS]; apply Hin.
      - apply elem_of_union_l. by apply elem_of_singleton.
      - by apply elem_of_union_r. }
    unfold Py.endswith_any, UNWANTED_SUFFIXES. simpl. rewrite orb_false_r.
    destruct (Py.endswith f ".pyc"), (Py.endswith f ".DS_Store"),
      (Py.endswith f ".mar"); simpl; split; try done.
    all: by intros (_ & _ & ? & ? & ?).
Qed.

(** Adding the manifest name again does not change the verdict. *)
Lemma keep_grown (S : gset string) (f : string) :
  keep ({[ "MANIFEST.json" ]} ∪ S) f = keep S f.
Proof.
  apply eq_true_iff_eq. rewrite !keep_iff. unfold wanted_file.
  rewrite not_elem_of_union, not_elem_of_singleton. tauto.
Qed.

Lemma filter_files_spec (k : string → bool) (files : list string) (S : gset string) :
  (∀ f, keep S f = k f) →
  ∃ S', filter_files files S = (List.filter k files, S') ∧ ∀ f, keep S' f = k f.
Proof.
  revert S. induction files as [|f rest IH]; intros S HS; simpl.
  - by exists S.
  - rewrite file_filter_spec.
    destruct (IH ({[ "MANIFEST.json" ]} ∪ S)) as (S' & -> & HS').
    { intros g. by rewrite keep_grown. }
    exists S'. by rewrite HS.
Qed.

(** ** The walk *)

Lemma walk_dir_unfold fmt N root rel files subdirs (st : gset string * list entry) :
  walk_dir fmt N root rel (Dir files subdirs) st =
    let (kept, files_to_exclude) := filter_files files (fst st) in
    walk_subdirs fmt N root rel subdirs
      (files_to_exclude, snd st ++ List.map (add_file fmt N root rel) kept).
Proof. reflexivity. Qed.

Lemma kept_entries_unfold k fmt N root rel files subdirs :
  kept_entries k fmt N root rel (Dir files subdirs) =
    List.map (add_file fmt N root rel) (List.filter k files) ++
    kept_below k fmt N root rel subdirs.
Proof. reflexivity. Qed.

(** The walk appends the kept entries and leaves the verdicts as they were. *)
Lemma walk_dir_spec (k : string → bool) (fmt N : string) (t : tree) :
  ∀ root rel S dst,
    (∀ f, keep S f = k f) →
    ∃ S', walk_dir fmt N root rel t (S, dst)
            = (S', dst ++ kept_entries k fmt N root rel t) ∧
          ∀ f, keep S' f = k f.
Proof.
  induction t as [files subdirs IHsub] using tree_induction.
  intros root rel S dst HS.
  rewrite walk_dir_unfold, kept_entries_unfold. simpl.
  destruct (filter_files_spec k files S HS) as (S1 & -> & HS1).
  rewrite app_assoc.
  generalize (dst ++ List.map (add_file fmt N root rel) (List.filter k files)).
  clear dst HS. revert S1 HS1.
  induction IHsub as [|[d sub] l' Hsub _ IHl']; intros S1 HS1 dst; simpl in *.
  - exists S1. by rewrite app_nil_r.
  - destruct (directory_filter d _).
    + destruct (Hsub (OsPath.join root d) (rel ++ [d]) S1 dst HS1)
        as (S2 & -> & HS2).
      destruct (IHl' S2 HS2 (dst ++ kept_entries k fmt N (OsPath.join root d)
                                     (rel ++ [d]) sub)) as (S3 & -> & HS3).
      exists S3. by rewrite app_assoc.
    + apply IHl', HS1.
Qed.

(** The kept entries are the files under wanted directories that the
    verdict keeps, each named from the directories it was reached through. *)
Lemma kept_entries_spec (k : string → bool) (fmt N : string) (t : tree) :
  ∀ root rel e,
    e ∈ kept_entries k fmt N root rel t ↔
    ∃ rel' f, file_at t rel' f ∧ Forall wanted_dir rel' ∧ k f = true ∧
              e = add_file fmt N (fold_left OsPath.join rel' root) (rel ++ rel') f.
Proof.
  induction t as [files subdirs IHsub] using tree_induction.
  intros root rel e. rewrite kept_entries_unfold, elem_of_app.
  assert (e ∈ List.map (add_file fmt N root rel) (List.filter k files) ↔
          ∃ f, f ∈ files ∧ k f = true ∧ e = add_file fmt N root rel f) as ->.
  { rewrite list_elem_of_In, in_map_iff. split.
    - intros (f & <- & [Hf Hk]%filter_In). exists f. by rewrite list_elem_of_In.
    - intros (f & Hf & Hk & ->). exists f. split; [done|].
      apply filter_In. by rewrite <- list_elem_of_In. }
  assert (e ∈ kept_below k fmt N root rel subdirs ↔
          ∃ d sub rel' f, (d, sub) ∈ subdirs ∧ wanted_dir d ∧ file_at sub rel' f ∧
            Forall wanted_dir rel' ∧ k f = true ∧
            e = add_file fmt N (fold_left OsPath.join rel' (OsPath.join root d))
                  ((rel ++ [d]) ++ rel') f) as ->.
  { induction IHsub as [|[d sub] l' Hsub _ IHl']; simpl in *.
    - split; [by intros ?%elem_of_nil|].
      by intros (d & sub & ? & ? & ?%elem_of_nil & _).
    - rewrite elem_of_app, IHl'. destruct (directory_filter d _) eqn:Hd.
      + apply directory_filter_iff in Hd. rewrite Hsub. split.
        * intros [(rel' & f & ? & ? & ? & ->) | (d' & sub' & rel' & f & ? & ?)].
          -- exists d, sub, rel', f. split; [left|done].
          -- exists d', sub', rel', f. split; [by right|done].
        * intros (d' & sub' & rel' & f & Hin & Hrest).
          apply elem_of_cons in Hin as [[= -> ->]|Hin].
          -- left. exists rel', f. tauto.
          -- right. by exists d', sub', rel', f.
      + split.
        * intros [?%elem_of_nil | (d' & sub' & rel' & f & ? & ?)]; [done|].
          exists d', sub', rel', f. split; [by right|done].
        * intros (d' & sub' & rel' & f & Hin & Hw & Hrest).
          apply elem_of_cons in Hin as [[= -> ->]|Hin].
          -- apply directory_filter_iff in Hw. congruence.
          -- right. by exists d', sub', rel', f. }
  clear IHsub. split.
  - intros [(f & Hf & Hk & ->) | (d & sub & rel' & f & Hin & Hw & Hat & Hall & Hk & ->)].
    + exists [], f. split; [by constructor|]. split; [constructor|].
      split; [done|]. simpl. by rewrite app_nil_r.
    + exists (d :: rel'), f. split; [by econstructor|]. split; [by constructor|].
      split; [done|]. simpl. by rewrite <- app_assoc.
  - intros (rel' & f & Hat & Hall & Hk & ->). inversion Hat; subst.
    + left. exists f. simpl. by rewrite app_nil_r.
    + right. apply Forall_cons in Hall as [Hd Hall].
      eexists _, _, _, f. do 5 (split; [done|]). simpl. by rewrite <- app_assoc.
Qed.

(** What [archive_dir] adds to an empty container. *)
Lemma archive_dir_entries (path : string) (src : tree) (S : gset string) (fmt N : string) :
  snd (archive_dir path src [] S fmt N) = kept_entries (keep S) fmt N path [] src.
Proof.
  unfold archive_dir.
  destruct (walk_dir_spec (keep S) fmt N src path [] S []) as (S' & -> & _); done.
Qed.

Lemma wf_tree_file_at (t : tree) (rel : list string) (f : string) :
  file_at t rel f → wf_tree t = true →
  Forall (fun p => valid_filename p = true) rel ∧ valid_filename f = true.
Proof.
  induction 1 as [files subdirs f Hf | files subdirs d sub rel f Hin Hat IH];
    simpl; intros [Hfiles Hsub]%andb_true_iff.
  - split; [constructor|]. rewrite forallb_forall in Hfiles.
    by apply Hfiles, list_elem_of_In.
  - clear Hfiles. induction subdirs as [|[d' sub'] l' IHl']; [by apply elem_of_nil in Hin|].
    apply andb_true_iff in Hsub as [[Hd Hwf]%andb_true_iff Hl'].
    apply elem_of_cons in Hin as [[= -> ->]|Hin]; [|by apply IHl'].
    destruct (IH Hwf). split; [by constructor|done].
Qed.

(** ** Entry names *)

Lemma relpath_below_nil (f : string) : relpath_below [] f = f.
Proof. reflexivity. Qed.

Lemma relpath_below_cons (d : string) (rel : list string) (f : string) :
  relpath_below (d :: rel) f = d +:+ "/" +:+ relpath_below rel f.
Proof. unfold relpath_below. by destruct rel. Qed.

Lemma endswith_relpath_below (rel : list string) (f suf : string) :
  Py.has_char "/" suf = false →
  Py.endswith (relpath_below rel f) suf = Py.endswith f suf.
Proof.
  intros Hsuf. induction rel as [|d rel IH]; [reflexivity|].
  rewrite relpath_below_cons.
  change ("/" +:+ relpath_below rel f) with (String "/" (relpath_below rel f)).
  by rewrite endswith_after_char.
Qed.

Lemma components_relpath_below (rel : list string) (f : string) :
  Forall (fun p => Py.has_char "/" p = false) rel → Py.has_char "/" f = false →
  OsPath.components (relpath_below rel f) = rel ++ [f].
Proof.
  intros Hrel Hf. apply components_str_join; [by destruct rel|].
  apply Forall_app. split; [done | by constructor].
Qed.

(** A relative name built from wanted directories and a wanted file meets
    what the claims say of an entry name. *)
Lemma clean_relpath_below (S : gset string) (rel : list string) (f : string) :
  Forall (fun p => Py.has_char "/" p = false) rel → Py.has_char "/" f = false →
  Forall wanted_dir rel → wanted_file S f →
  clean_name S (relpath_below rel f).
Proof.
  intros Hrel Hf Hdirs (H1 & H2 & H3 & H4 & H5).
  unfold clean_name, clean_path, OsPath.basename, OsPath.dirnames.
  rewrite components_relpath_below, last_last, removelast_last by done.
  by rewrite !endswith_relpath_below.
Qed.

Lemma basename_relpath_below (rel : list string) (f : string) :
  Forall (fun p => Py.has_char "/" p = false) rel → Py.has_char "/" f = false →
  OsPath.basename (relpath_below rel f) = f.
Proof.
  intros Hrel Hf. unfold OsPath.basename.
  by rewrite components_relpath_below, last_last.
Qed.

(** With a directory name in front, [join] names the entry as one level
    deeper. *)
Lemma join_relpath_below (N : string) (rel : list string) (f : string) :
  N ≠ "" → Py.has_char "/" N = false →
  Forall (fun p => valid_filename p = true) rel → valid_filename f = true →
  OsPath.join N (relpath_below rel f) = relpath_below (N :: rel) f.
Proof.
  intros HN Hsep%no_sep_not_endswith Hrel Hf. rewrite relpath_below_cons.
  apply join_relative; [done..|].
  destruct rel as [|d rel].
  - by apply (str_join_not_absolute f []).
  - apply Forall_cons in Hrel as [Hd _].
    by apply (str_join_not_absolute d (rel ++ [f])).
Qed.

(** ** Validated model names *)

Lemma name_char_no_sep (t : string) :
  forallb name_char (list_ascii_of_string t) = true → Py.has_char "/" t = false.
Proof.
  induction t as [|c t IH]; [done|]. simpl.
  intros [Hc Ht]%andb_true_iff. rewrite (IH Ht), orb_false_r.
  destruct (Ascii.eqb_spec c "/") as [->|]; [discriminate Hc | reflexivity].
Qed.

(** A name the validator lets through is not empty, has no separator, and
    is a wanted directory name. *)
Lemma validated_name (N : string) :
  check_model_name_regex_or_exit N = Return tt →
  N ≠ "" ∧ Py.has_char "/" N = false ∧ wanted_dir N.
Proof.
  unfold check_model_name_regex_or_exit.
  destruct (re_match_model_name N) eqn:Hm; [intros _ | discriminate].
  destruct N as [|c rest]; [discriminate|]. simpl in Hm.
  apply andb_true_iff in Hm as [Hc Hrest].
  apply star_dollar_iff in Hrest as (t & Ht%name_char_no_sep & Hrest).
  split; [done|]. split.
  - simpl. destruct (Ascii.eqb_spec c "/") as [->|]; [discriminate Hc|]. simpl.
    destruct Hrest as [->| ->]; [done|].
    by rewrite has_char_append, Ht.
  - repeat split.
    + intros [= -> _]. discriminate Hc.
    + intros [= -> _]. discriminate Hc.
    + unfold Py.startswith.
      destruct (String.prefix _ _) eqn:E; [|reflexivity].
      apply String.prefix_correct in E. simpl in E. injection E as -> _.
      discriminate Hc.
Qed.

(** ** The archive *)

Lemma add_file_default (N root : string) (rel : list string) (f : string) :
  arcname (add_file "default" N root rel f) = relpath_below rel f.
Proof. reflexivity. Qed.

Lemma add_file_tgz (N root : string) (rel : list string) (f : string) :
  arcname (add_file "tgz" N root rel f) = OsPath.join N (relpath_below rel f).
Proof. reflexivity. Qed.

(** The entries [archive_dir] writes are the accepted files of the tree. *)
Lemma archive_dir_accepted (path : string) (src : tree) (S : gset string)
    (fmt N : string) (e : entry) :
  e ∈ snd (archive_dir path src [] S fmt N) ↔
  ∃ rel f, accepted S src rel f ∧
           e = add_file fmt N (fold_left OsPath.join rel path) rel f.
Proof.
  rewrite archive_dir_entries, kept_entries_spec. unfold accepted.
  setoid_rewrite keep_iff. simpl. split.
  - intros (rel & f & ? & ? & ? & ->). by exists rel, f.
  - intros (rel & f & (? & ? & ?) & ->). by exists rel, f.
Qed.

Lemma accepted_valid (S : gset string) (t : tree) (rel : list string) (f : string) :
  wf_tree t = true → accepted S t rel f →
  Forall (fun p => valid_filename p = true) rel ∧ valid_filename f = true ∧
  Forall (fun p => Py.has_char "/" p = false) rel ∧ Py.has_char "/" f = false.
Proof.
  intros Hwf (Hat & _ & _). destruct (wf_tree_file_at _ _ _ Hat Hwf) as [Hrel Hf].
  repeat split; [done..| |by apply valid_filename_no_sep].
  eapply Forall_impl; [exact Hrel|]. apply valid_filename_no_sep.
Qed.

(** The scenario of the specification: [handler.py], [weights.bin] and
    [__pycache__/x.pyc] packaged as [mymodel] in the default format. *)
Example archive_end_to_end :
  archive (fun _ => true) "/out" "mymodel" "/src"
      (Dir ["handler.py"; "weights.bin"] [("__pycache__", Dir ["x.pyc"] [])])
      [] "{}" "default"
    = ([], Return (Some (Archive "/out/mymodel.mar"
                           [Entry "handler.py" (FromFile "/src/handler.py");
                            Entry "weights.bin" (FromFile "/src/weights.bin");
                            Entry "MAR-INF/MANIFEST.json" (FromText "{}")]))).
Proof. reflexivity. Qed.



(** C1: whatever the source tree, the excluded originals and the format, the
    container is the packaged files followed by the manifest entry at the
    reserved path. No packaged file has the reserved manifest name or the
    name of an excluded original as its base name, none has a name ending in
    [.pyc], [.DS_Store] or [.mar], and none lies under a directory named
    [__MACOSX] or [__pycache__] or starting with a dot. The manifest entry is
    the one entry with the reserved base name, and its path is clean too. *)
Theorem archive_entries_filtered
    (can_write : string → bool) (export_file N model_path : string) (T : tree)
    (files_to_exclude : list string) (manifest fmt : string) :
  wf_tree T = true →
  fmt = "default" ∨ (fmt = "tgz" ∧ check_model_name_regex_or_exit N = Return tt) →
  can_write (get_archive_export_path export_file N fmt) = true →
  ∃ body m,
    archive can_write export_file N model_path T files_to_exclude manifest fmt
      = ([], Return (Some (Archive (get_archive_export_path export_file N fmt)
                             (body ++ [m])))) ∧
    (∀ e, e ∈ body → clean_name (list_to_set files_to_exclude) (arcname e)) ∧
    data m = FromText manifest ∧
    arcname m = (if String.eqb fmt "tgz" then N +:+ "/MAR-INF/MANIFEST.json"
                 else "MAR-INF/MANIFEST.json") ∧
    OsPath.basename (arcname m) = "MANIFEST.json" ∧
    clean_path (arcname m).
Proof.
  intros Hwf [-> | [-> Hvalid]] Hcw; unfold archive; simpl; rewrite Hcw.
  - do 2 eexists. split; [reflexivity|]. split.
    + intros e (rel & f & Hacc & ->)%archive_dir_accepted.
      destruct (accepted_valid _ _ _ _ Hwf Hacc) as (_ & _ & Hrel & Hf).
      rewrite add_file_default. destruct Hacc as (_ & Hdirs & Hfile).
      by apply clean_relpath_below.
    + simpl. repeat split; try reflexivity.
      repeat constructor; discriminate.
  - destruct (validated_name N Hvalid) as (HN & Hsep & Hdir).
    rewrite join3_manifest by (by try apply no_sep_not_endswith).
    do 2 eexists. split; [reflexivity|]. split.
    + intros e (rel & f & Hacc & ->)%archive_dir_accepted.
      destruct (accepted_valid _ _ _ _ Hwf Hacc) as (Hrel & Hf & Hrel' & Hf').
      rewrite add_file_tgz, join_relpath_below by done.
      destruct Hacc as (_ & Hdirs & Hfile).
      apply clean_relpath_below; [by constructor | done | by constructor | done].
    + simpl. split; [reflexivity|]. split; [reflexivity|].
      change (N +:+ "/MAR-INF/MANIFEST.json")
        with (relpath_below [N; "MAR-INF"] "MANIFEST.json").
      assert (Forall (λ p, Py.has_char "/" p = false) [N; "MAR-INF"]) as Hparts
        by (by repeat constructor).
      split; [by apply basename_relpath_below|].
      unfold clean_path, OsPath.dirnames.
      rewrite components_relpath_below, removelast_last by done.
      rewrite !endswith_relpath_below by reflexivity.
      repeat split; try reflexivity.
      constructor; [done|]. repeat constructor; discriminate.
Qed.

Lemma archive_entries_filtered_witness :
  ∃ body m,
    archive (fun _ => true) "/out" "mymodel" "/src" sample_tree ["net.onnx"] "{}" "tgz"
      = ([], Return (Some (Archive "/out/mymodel.tar.gz" (body ++ [m])))) ∧
    (∀ e, e ∈ body → clean_name (list_to_set ["net.onnx"]) (arcname e)) ∧
    data m = FromText "{}" ∧
    arcname m = "mymodel/MAR-INF/MANIFEST.json" ∧
    OsPath.basename (arcname m) = "MANIFEST.json" ∧
    clean_path (arcname m).
Proof.
  apply (archive_entries_filtered (fun _ => true) "/out" "mymodel" "/src" sample_tree
           ["net.onnx"] "{}" "tgz"); [reflexivity | | reflexivity].
  right. split; reflexivity.
Defined.

(** * Further properties *)

(** ** Input validation *)

(** [validate_inputs] returns exactly when the name passes the name check
    and both paths, made absolute, are directories. *)
Theorem validate_inputs_return_iff
    (isdir : string → bool) (abspath : string → string)
    (model_path model_name export_path : string) :
  validate_inputs isdir abspath model_path model_name export_path = Return tt ↔
  check_model_name_regex_or_exit model_name = Return tt ∧
  isdir (abspath export_path) = true ∧
  isdir (abspath model_path) = true.
Proof.
  unfold validate_inputs.
  destruct (check_model_name_regex_or_exit model_name) as [[]|e]; simpl.
  - destruct (isdir (abspath export_path)), (isdir (abspath model_path)); simpl;
      split; try done; by intros (_ & ? & ?).
  - split; [done | by intros [? _]].
Qed.

(** X1: the three checks are made in a fixed order and the first failure is the
    one reported: a bad name whatever the paths are, then the export path,
    named as it was given, then the model path. *)
Theorem validate_inputs_first_failure
    (isdir : string → bool) (abspath : string → string)
    (model_path model_name export_path : string) :
  (re_match_model_name model_name = false →
   validate_inputs isdir abspath model_path model_name export_path
     = Raise (ModelArchiverError INVALID_NAME_MSG [])) ∧
  (re_match_model_name model_name = true →
   isdir (abspath export_path) = false →
   validate_inputs isdir abspath model_path model_name export_path
     = Raise (ModelArchiverError EXPORT_PATH_MSG [FStr export_path])) ∧
  (re_match_model_name model_name = true →
   isdir (abspath export_path) = true →
   isdir (abspath model_path) = false →
   validate_inputs isdir abspath model_path model_name export_path
     = Raise (ModelArchiverError MODEL_PATH_MSG [FStr model_path])).
Proof.
  unfold validate_inputs, check_model_name_regex_or_exit.
  split; [|split].
  - by intros ->.
  - intros -> Hexport. simpl. by rewrite Hexport.
  - intros -> Hexport Hmodel. simpl. by rewrite Hexport, Hmodel.
Qed.

Lemma validate_inputs_first_failure_witness :
  validate_inputs (fun _ => false) (fun p => "/cwd/" +:+ p) "model" "my model" "out"
    = Raise (ModelArchiverError INVALID_NAME_MSG []) ∧
  validate_inputs (fun p => String.eqb p "/cwd/model") (fun p => "/cwd/" +:+ p)
      "model" "my-model" "out"
    = Raise (ModelArchiverError EXPORT_PATH_MSG [FStr "out"]) ∧
  validate_inputs (fun p => String.eqb p "/cwd/out") (fun p => "/cwd/" +:+ p)
      "model" "my-model" "out"
    = Raise (ModelArchiverError MODEL_PATH_MSG [FStr "model"]).
Proof.
  split; [|split].
  - apply (validate_inputs_first_failure (fun _ => false) (fun p => "/cwd/" +:+ p)
             "model" "my model" "out"). reflexivity.
  - apply (validate_inputs_first_failure (fun p => String.eqb p "/cwd/model")
             (fun p => "/cwd/" +:+ p) "model" "my-model" "out"); reflexivity.
  - apply (validate_inputs_first_failure (fun p => String.eqb p "/cwd/out")
             (fun p => "/cwd/" +:+ p) "model" "my-model" "out"); reflexivity.
Defined.

(** ** Names the validator accepts *)

(** X2: the names [check_model_name_regex_or_exit] lets through are the names
    with an alphanumeric first character and then only alphanumerics, ['_'],
    ['-'] and ['.'], and those names followed by one newline; every other
    name raises the error with the fixed message. *)
Theorem check_model_name_regex_or_exit_accepts (s : string) :
  (check_model_name_regex_or_exit s = Return tt ↔
   naming_policy s = true ∨ ∃ t, s = t +:+ NEWLINE ∧ naming_policy t = true) ∧
  (check_model_name_regex_or_exit s ≠ Return tt →
   check_model_name_regex_or_exit s = Raise (ModelArchiverError INVALID_NAME_MSG [])).
Proof.
  split; [apply check_model_name_regex_or_exit_iff|].
  unfold check_model_name_regex_or_exit.
  by destruct (re_match_model_name s).
Qed.

(** X3: a name that passed the check is safe to use as a path component: it is
    not empty, has no separator in it, does not start with a dot, and is
    none of the directory names the walk prunes. *)
Theorem check_model_name_regex_or_exit_path_component (N : string) :
  check_model_name_regex_or_exit N = Return tt →
  N ≠ "" ∧ Py.has_char "/" N = false ∧ Py.startswith N "." = false ∧
  N ≠ "__MACOSX" ∧ N ≠ "__pycache__".
Proof.
  intros (HN & Hsep & H1 & H2 & Hdot)%validated_name. done.
Qed.

Lemma check_model_name_regex_or_exit_path_component_witness :
  "resnet-18_v1.0" ≠ "" ∧ Py.has_char "/" "resnet-18_v1.0" = false ∧
  Py.startswith "resnet-18_v1.0" "." = false ∧
  "resnet-18_v1.0" ≠ "__MACOSX" ∧ "resnet-18_v1.0" ≠ "__pycache__".
Proof.
  apply check_model_name_regex_or_exit_path_component. reflexivity.
Defined.

(** ** Target paths *)

Lemma split_go_not_nil (sep : ascii) (s cur : string) : Py.split_go sep cur s ≠ [].
Proof.
  revert cur. induction s as [|c s IH]; intros cur; simpl; [done|].
  destruct (Ascii.eqb c sep); [done | apply IH].
Qed.

(** What follows the last separator of a string is its last component. *)
Lemma last_split_go (sep : ascii) (f : string) :
  Py.has_char sep f = false →
  ∀ p cur, List.last (Py.split_go sep cur (p +:+ String sep f)) "" = f.
Proof.
  intros Hf. induction p as [|c p IH]; intros cur.
  - rewrite append_nil_l. simpl. rewrite Ascii.eqb_refl.
    by rewrite split_go_no_sep.
  - rewrite append_cons. simpl. destruct (Ascii.eqb c sep); [|apply IH].
    specialize (IH "").
    destruct (Py.split_go sep "" (p +:+ String sep f)) eqn:E; [|exact IH].
    by apply split_go_not_nil in E.
Qed.

(** X4: for a name that passed the check, the archive is written directly into
    the export directory: the target path is the export directory, one
    separator exactly when the directory is not empty and does not already
    end in one, and a file name with no separator in it, which is the base
    name of the target. *)
Theorem get_archive_export_path_in_export_dir (export_dir N fmt : string) :
  check_model_name_regex_or_exit N = Return tt →
  Py.has_char "/" (N +:+ (if String.eqb fmt "default" then ".mar" else ".tar.gz"))
    = false ∧
  get_archive_export_path export_dir N fmt
    = export_dir
      +:+ (if String.eqb export_dir "" || Py.endswith export_dir "/" then "" else "/")
      +:+ N +:+ (if String.eqb fmt "default" then ".mar" else ".tar.gz") ∧
  OsPath.basename (get_archive_export_path export_dir N fmt)
    = N +:+ (if String.eqb fmt "default" then ".mar" else ".tar.gz").
Proof.
  intros (HN & Hsep & _)%validated_name.
  assert (Py.has_char "/"
            (N +:+ (if String.eqb fmt "default" then ".mar" else ".tar.gz")) = false)
    as Hfile.
  { rewrite has_char_append, Hsep. by destruct (String.eqb fmt "default"). }
  assert (get_archive_export_path export_dir N fmt
          = export_dir
            +:+ (if String.eqb export_dir "" || Py.endswith export_dir "/"
                 then "" else "/")
            +:+ N +:+ (if String.eqb fmt "default" then ".mar" else ".tar.gz"))
    as Hpath.
  { unfold get_archive_export_path, OsPath.join,
      MODEL_ARCHIVE_EXTENSION, TAR_GZ_EXTENSION.
    rewrite valid_filename_not_absolute
      by (unfold valid_filename; apply String.eqb_neq in HN; by rewrite HN, Hsep).
    by destruct (String.eqb export_dir "" || Py.endswith export_dir "/"). }
  split; [exact Hfile|]. split; [exact Hpath|].
  rewrite Hpath. unfold OsPath.basename, OsPath.components, Py.split.
  destruct (String.eqb export_dir "" || Py.endswith export_dir "/") eqn:E.
  - rewrite append_nil_l. apply orb_true_iff in E as [->%String.eqb_eq | Hend].
    + rewrite append_nil_l. by rewrite split_go_no_sep.
    + apply endswith_iff in Hend as [p ->]. rewrite append_assoc.
      by apply last_split_go.
  - by apply last_split_go.
Qed.

Lemma get_archive_export_path_in_export_dir_witness :
  Py.has_char "/" "resnet-18.tar.gz" = false ∧
  get_archive_export_path "/out" "resnet-18" "tgz" = "/out/resnet-18.tar.gz" ∧
  OsPath.basename (get_archive_export_path "/out" "resnet-18" "tgz")
    = "resnet-18.tar.gz".
Proof.
  apply (get_archive_export_path_in_export_dir "/out" "resnet-18" "tgz").
  reflexivity.
Defined.

(** X5: every format other than ["default"] is given the tar.gz path, so the
    collision check of an unknown format is the one of the tgz format. *)
Theorem check_mar_already_exists_non_default
    (path_exists : string → bool) (getcwd name : string)
    (export_dir : option string) (overwrite : bool) (fmt : string) :
  fmt ≠ "default" →
  get_archive_export_path (default getcwd export_dir) name fmt
    = OsPath.join (default getcwd export_dir) (name +:+ ".tar.gz") ∧
  check_mar_already_exists path_exists getcwd name export_dir overwrite fmt
    = check_mar_already_exists path_exists getcwd name export_dir overwrite "tgz".
Proof.
  intros Hfmt%String.eqb_neq.
  unfold check_mar_already_exists, get_archive_export_path.
  by rewrite Hfmt.
Qed.

Lemma check_mar_already_exists_non_default_witness :
  get_archive_export_path "/out" "m" "zip" = "/out/m.tar.gz" ∧
  check_mar_already_exists (fun p => String.eqb p "/out/m.tar.gz") "/cwd" "m"
      (Some "/out") false "zip"
    = check_mar_already_exists (fun p => String.eqb p "/out/m.tar.gz") "/cwd" "m"
        (Some "/out") false "tgz".
Proof.
  apply (check_mar_already_exists_non_default
           (fun p => String.eqb p "/out/m.tar.gz") "/cwd" "m" (Some "/out") false "zip").
  discriminate.
Defined.

(** ** Unique files *)

(** The names [find_unique] selects: those of the set with the suffix, each
    once. *)
Lemma find_unique_matches (files : gset string) (suffix : string) :
  NoDup (filter (fun f => Py.endswith f suffix = true) (elements files)) ∧
  ∀ f, f ∈ filter (fun f => Py.endswith f suffix = true) (elements files) ↔
       f ∈ files ∧ Py.endswith f suffix = true.
Proof.
  split; [apply NoDup_filter, NoDup_elements|].
  intros f. rewrite list_elem_of_filter, elem_of_elements. tauto.
Qed.


(** X6: [find_unique], for any suffix: [None] means no name of the set has the
    suffix; a name means it is in the set, has the suffix, and is the only
    one that does; an error means at least two names do, and reports the
    suffix, how many names matched, and those names. *)
Theorem find_unique_cases (files : gset string) (suffix : string) :
  match find_unique files suffix with
  | Return None => ∀ f, f ∈ files → Py.endswith f suffix = false
  | Return (Some f) =>
      f ∈ files ∧ Py.endswith f suffix = true ∧
      ∀ g, g ∈ files → Py.endswith g suffix = true → g = f
  | Raise e =>
      ∃ matches,
        e = ModelArchiverError MULTIPLE_FILES_MSG
              [FStr suffix; FInt (length matches); FList matches] ∧
        2 ≤ length matches ∧ NoDup matches ∧
        ∀ f, f ∈ matches ↔ f ∈ files ∧ Py.endswith f suffix = true
  end.
Proof.
  unfold find_unique. destruct (find_unique_matches files suffix) as [Hnd Hin].
  revert Hnd Hin.
  generalize (filter (fun f => Py.endswith f suffix = true) (elements files)).
  intros [|x [|y rest]] Hnd Hin.
  - intros f Hf. destruct (Py.endswith f suffix) eqn:E; [|reflexivity].
    exfalso. eapply not_elem_of_nil, Hin. eauto.
  - destruct (Hin x) as [[Hx Hsuf] _]; [left|].
    split; [done|]. split; [done|]. intros g Hg Hgs.
    by apply list_elem_of_singleton, Hin.
  - eexists. split; [reflexivity|]. split; [simpl; lia | done].
Qed.

(** ** Special model types, continued *)

Section ExclusionResolverMore.

Variable onnx_backend : string → string → option string → option exn.


End ExclusionResolverMore.



(** ** Manifest generation, continued *)

(** X9: manifest generation gives no manifest unless the namespace has the
    attributes [model_name], [handler] and [runtime]: whenever it returns
    a text, all three are there. *)
Theorem generate_manifest_json_required_attributes
    (arg_dict : gmap string string) (text : string) :
  generate_manifest_json arg_dict = Return text →
  is_Some (arg_dict !! "model_name") ∧ is_Some (arg_dict !! "handler") ∧
  is_Some (arg_dict !! "runtime").
Proof.
  unfold generate_manifest_json, generate_publisher, generate_engine,
    generate_model, getattr.
  rewrite !has_key_lookup, !is_Some_alt.
  destruct (arg_dict !! "author"), (arg_dict !! "email"), (arg_dict !! "engine"),
    (arg_dict !! "model_name"), (arg_dict !! "handler"), (arg_dict !! "runtime");
    simpl; intros Ht; first [discriminate Ht | done].
Qed.

Lemma generate_manifest_json_required_attributes_witness :
  is_Some (sample_args !! "model_name") ∧ is_Some (sample_args !! "handler") ∧
  is_Some (sample_args !! "runtime").
Proof.
  eapply (generate_manifest_json_required_attributes sample_args). reflexivity.
Defined.

(** X10: publisher information given by half is dropped without an error: an
    author with no email, or an email with no author, leaves the manifest
    as it is without either. *)
Theorem generate_manifest_json_partial_publisher
    (arg_dict : gmap string string) :
  (arg_dict !! "email" = None →
   generate_manifest_json arg_dict
     = generate_manifest_json (delete "author" arg_dict)) ∧
  (arg_dict !! "author" = None →
   generate_manifest_json arg_dict
     = generate_manifest_json (delete "email" arg_dict)).
Proof.
  unfold generate_manifest_json, generate_publisher, generate_engine,
    generate_model, getattr.
  rewrite !has_key_lookup. split; intros Hnone.
  - rewrite lookup_delete_eq, !lookup_delete_ne, Hnone by done.
    by destruct (arg_dict !! "author").
  - rewrite lookup_delete_eq, !lookup_delete_ne, Hnone by done.
    reflexivity.
Qed.

Lemma generate_manifest_json_partial_publisher_witness :
  generate_manifest_json sample_args
    = generate_manifest_json (delete "author" sample_args).
Proof.
  apply (proj1 (generate_manifest_json_partial_publisher sample_args)).
  reflexivity.
Defined.

(** ** Cleanup, continued *)

(** X11: cleanup that ends normally was given every path once, and every
    path named something other than a directory when it started: a path
    that is listed twice, is missing or is a directory makes the call
    fail. *)
Theorem clean_temp_files_succeeds_only_if
    (temp_files : list string) (fs fs' : gmap string node) :
  clean_temp_files temp_files fs = (fs', Return tt) →
  NoDup temp_files ∧
  ∀ p, p ∈ temp_files → fs !! p ≠ None ∧ fs !! p ≠ Some Directory.
Proof.
  revert fs. induction temp_files as [|f rest IH]; intros fs; simpl.
  - intros _. split; [constructor|]. intros p Hp. by apply not_elem_of_nil in Hp.
  - destruct (os_remove f fs) as [fs1|e] eqn:Hrm; [|discriminate].
    apply os_remove_return in Hrm as [Hf ->].
    intros [Hnd Hall]%IH.
    assert (f ∉ rest) as Hnew.
    { intros [Hin _]%Hall. by rewrite lookup_delete_eq in Hin. }
    rewrite NoDup_cons. split; [done|].
    intros p [->|Hp]%elem_of_cons; [by rewrite Hf|].
    destruct (Hall p Hp) as [Hsome Hdir].
    by rewrite lookup_delete_ne in Hsome, Hdir by (by intros ->).
Qed.

Lemma clean_temp_files_succeeds_only_if_witness :
  NoDup ["/src/m-symbol.json"; "/src/m-0000.params"] ∧
  ∀ p, p ∈ ["/src/m-symbol.json"; "/src/m-0000.params"] →
       sample_fs !! p ≠ None ∧ sample_fs !! p ≠ Some Directory.
Proof.
  eapply (clean_temp_files_succeeds_only_if
            ["/src/m-symbol.json"; "/src/m-0000.params"] sample_fs).
  reflexivity.
Defined.

(** ** Paths of the archived files *)

Lemma join_shape (a : string) :
  ∃ sep, (sep = "" ∨ sep = "/") ∧
         ∀ b, Py.startswith b "/" = false → OsPath.join a b = a +:+ sep +:+ b.
Proof.
  unfold OsPath.join. destruct (String.eqb a "" || Py.endswith a "/") eqn:E.
  - exists "". split; [by left|]. by intros b ->.
  - exists "/". split; [by right|]. by intros b ->.
Qed.

(** Joining a directory name and then a relative path is joining the two
    at once. *)
Lemma join_join (a d x : string) :
  valid_filename d = true → Py.startswith x "/" = false →
  OsPath.join (OsPath.join a d) x = OsPath.join a (d +:+ "/" +:+ x).
Proof.
  intros Hd Hx. destruct (join_shape a) as (sep & _ & Hj).
  rewrite (Hj (d +:+ "/" +:+ x)) by (by apply valid_filename_not_absolute).
  rewrite (Hj d)
    by (rewrite <- (append_nil_r d); by apply valid_filename_not_absolute).
  destruct d as [|c d]; [discriminate Hd|].
  apply valid_filename_no_sep in Hd. simpl in Hd.
  apply orb_false_iff in Hd as [Hc Hd].
  rewrite join_relative; [by rewrite !append_assoc | | | done].
  - rewrite <- append_assoc. generalize (a +:+ sep). by intros [|? ?].
  - rewrite <- append_assoc, endswith_after_char.
    + by apply no_sep_not_endswith.
    + change (Py.has_char c "/") with (Ascii.eqb "/" c || false).
      rewrite orb_false_r. apply Ascii.eqb_neq. intros <-.
      by rewrite Ascii.eqb_refl in Hc.
Qed.

Lemma relpath_below_not_absolute (rel : list string) (f : string) :
  Forall (fun p => valid_filename p = true) rel → valid_filename f = true →
  Py.startswith (relpath_below rel f) "/" = false.
Proof.
  intros Hrel Hf. destruct rel as [|d rel].
  - by apply (str_join_not_absolute f []).
  - apply Forall_cons in Hrel as [Hd _].
    by apply (str_join_not_absolute d (rel ++ [f])).
Qed.

(** The path [os.walk] builds for a file is the walked path joined with the
    file's relative name. *)
Lemma join_fold (rel : list string) (path f : string) :
  Forall (fun p => valid_filename p = true) rel → valid_filename f = true →
  OsPath.join (fold_left OsPath.join rel path) f
    = OsPath.join path (relpath_below rel f).
Proof.
  intros Hrel Hf. revert path. induction Hrel as [|d rel Hd Hrel IH]; intros path.
  - reflexivity.
  - simpl. rewrite IH, relpath_below_cons.
    apply join_join; [done | by apply relpath_below_not_absolute].
Qed.

(** The entries of a walk are those of its kept paths, in order. *)
Lemma kept_entries_paths (k : string → bool) (fmt N : string) (t : tree) :
  ∀ root rel,
    kept_entries k fmt N root rel t
      = List.map (entry_of fmt N root rel) (kept_paths k t).
Proof.
  induction t as [files subdirs IHsub] using tree_induction. intros root rel.
  rewrite kept_entries_unfold.
  change (kept_paths k (Dir files subdirs))
    with (List.map (fun f => ([], f)) (List.filter k files) ++ paths_below k subdirs).
  rewrite List.map_app, List.map_map. f_equal.
  - apply List.map_ext. intros f. unfold entry_of. simpl. by rewrite app_nil_r.
  - induction IHsub as [|[d sub] l' Hsub _ IHl']; simpl in *; [done|].
    rewrite List.map_app, IHl'. f_equal. destruct (directory_filter d _); [|done].
    rewrite Hsub, List.map_map. apply List.map_ext. intros p.
    unfold entry_of. simpl. by rewrite <- app_assoc.
Qed.

Lemma kept_entries_wrap (k : string → bool) (N root : string) (rel : list string)
    (t : tree) :
  kept_entries k "tgz" N root rel t
    = List.map (wrap_entry N) (kept_entries k "default" N root rel t).
Proof.
  rewrite !kept_entries_paths, List.map_map. by apply List.map_ext.
Qed.

Lemma join3_nested (N : string) :
  OsPath.join3 N MAR_INF MANIFEST_FILE_NAME
    = OsPath.join N (OsPath.join MAR_INF MANIFEST_FILE_NAME).
Proof. unfold OsPath.join3. by rewrite join_join. Qed.

(** ** The two formats *)

(** X13: the archive mirrors the source directory: in the default format every
    packaged file is read from the model path joined with the name it gets
    in the archive. *)
Theorem archive_mirrors_source
    (can_write : string → bool) (export_file N model_path : string) (T : tree)
    (files_to_exclude : list string) (manifest : string) :
  wf_tree T = true →
  can_write (get_archive_export_path export_file N "default") = true →
  ∃ body,
    archive can_write export_file N model_path T files_to_exclude manifest "default"
      = ([], Return (Some (Archive (get_archive_export_path export_file N "default")
                             (body ++ [Entry "MAR-INF/MANIFEST.json"
                                          (FromText manifest)])))) ∧
    ∀ e, e ∈ body → data e = FromFile (OsPath.join model_path (arcname e)).
Proof.
  intros Hwf Hcw. unfold archive. simpl. rewrite Hcw.
  eexists. split; [reflexivity|].
  intros e (rel & f & Hacc & ->)%archive_dir_accepted.
  destruct (accepted_valid _ _ _ _ Hwf Hacc) as (Hrel & Hf & _).
  rewrite add_file_default. unfold add_file. simpl. by rewrite join_fold.
Qed.

Lemma archive_mirrors_source_witness :
  ∃ body,
    archive (fun _ => true) "/out" "mymodel" "/src/" sample_tree ["net.onnx"] "{}"
        "default"
      = ([], Return (Some (Archive "/out/mymodel.mar"
                             (body ++ [Entry "MAR-INF/MANIFEST.json"
                                          (FromText "{}")])))) ∧
    ∀ e, e ∈ body → data e = FromFile (OsPath.join "/src/" (arcname e)).
Proof.
  apply (archive_mirrors_source (fun _ => true) "/out" "mymodel" "/src/"
           sample_tree ["net.onnx"] "{}"); reflexivity.
Defined.

(** ** What [archive_dir] does to its arguments *)

Lemma filter_files_set (files : list string) (S : gset string) :
  S ⊆ snd (filter_files files S) ∧
  snd (filter_files files S) ⊆ {[ "MANIFEST.json" ]} ∪ S.
Proof.
  revert S. induction files as [|f rest IH]; intros S; simpl.
  - split; [done | apply union_subseteq_r].
  - rewrite file_filter_spec. specialize (IH ({[ "MANIFEST.json" ]} ∪ S)).
    destruct (filter_files rest _) as [kept S2]. simpl in *.
    destruct IH as [Hlow Hup]. split.
    + etrans; [apply union_subseteq_r | exact Hlow].
    + etrans; [exact Hup|]. apply union_least; [apply union_subseteq_l | done].
Qed.

Lemma walk_dir_set (fmt N : string) (t : tree) :
  ∀ root rel S dst,
    S ⊆ fst (walk_dir fmt N root rel t (S, dst)) ∧
    fst (walk_dir fmt N root rel t (S, dst)) ⊆ {[ "MANIFEST.json" ]} ∪ S.
Proof.
  induction t as [files subdirs IHsub] using tree_induction.
  intros root rel S dst. rewrite walk_dir_unfold. simpl.
  pose proof (filter_files_set files S) as [Hlow Hup].
  destruct (filter_files files S) as [kept S1]. simpl in Hlow, Hup.
  generalize (dst ++ List.map (add_file fmt N root rel) kept). clear dst.
  revert S1 Hlow Hup.
  induction IHsub as [|[d sub] l' Hsub _ IHl']; intros S1 Hlow Hup dst; simpl in *.
  - done.
  - destruct (directory_filter d _); [|by apply IHl'].
    destruct (Hsub (OsPath.join root d) (rel ++ [d]) S1 dst) as [Hlow2 Hup2].
    destruct (walk_dir fmt N (OsPath.join root d) (rel ++ [d]) sub (S1, dst))
      as [S2 dst2]. simpl in Hlow2, Hup2.
    apply IHl'; [by etrans|]. etrans; [exact Hup2|].
    apply union_least; [apply union_subseteq_l | done].
Qed.

(** X14: [archive_dir] only appends to the container it is given, and what it
    appends does not depend on what the container held. The caller's
    exclusion set keeps its names and gains at most the reserved manifest
    name. *)
Theorem archive_dir_side_effects
    (path : string) (src : tree) (dst : list entry) (S : gset string)
    (fmt N : string) :
  snd (archive_dir path src dst S fmt N)
    = dst ++ snd (archive_dir path src [] S fmt N) ∧
  S ⊆ fst (archive_dir path src dst S fmt N) ∧
  fst (archive_dir path src dst S fmt N) ⊆ {[ "MANIFEST.json" ]} ∪ S.
Proof.
  split; [|apply walk_dir_set].
  rewrite archive_dir_entries. unfold archive_dir.
  by destruct (walk_dir_spec (keep S) fmt N src path [] S dst) as (S' & -> & _).
Qed.

(** X15: excluding the reserved manifest name by hand changes nothing: the
    entries are the same with and without it in the exclusion set. *)
Theorem archive_dir_manifest_always_excluded
    (path : string) (src : tree) (S : gset string) (fmt N : string) :
  snd (archive_dir path src [] ({[ "MANIFEST.json" ]} ∪ S) fmt N)
    = snd (archive_dir path src [] S fmt N).
Proof.
  rewrite (archive_dir_entries path src S). unfold archive_dir.
  destruct (walk_dir_spec (keep S) fmt N src path [] ({[ "MANIFEST.json" ]} ∪ S) [])
    as (S' & -> & _); [apply keep_grown | done].
Qed.

(** ** Distinct entry names *)

Lemma NoDup_map_on {A B : Type} (f : A → B) (l : list A) :
  (∀ x y, x ∈ l → y ∈ l → f x = f y → x = y) → NoDup l → NoDup (List.map f l).
Proof.
  intros Hinj Hnd. induction Hnd as [|x l Hx Hnd IH]; simpl; [constructor|].
  apply NoDup_cons. split.
  - rewrite list_elem_of_In, in_map_iff. intros (y & Heq & Hy%list_elem_of_In).
    apply Hx. assert (y = x) as <-; [|done].
    apply Hinj; [by right | left | done].
  - apply IH. intros y z Hy Hz. apply Hinj; by right.
Qed.

Lemma append_inj_l (a x y : string) : a +:+ x = a +:+ y → x = y.
Proof.
  induction a as [|c a IH]; [done|]. rewrite !append_cons. intros [= Heq]. auto.
Qed.

Lemma kept_paths_unfold k files subdirs :
  kept_paths k (Dir files subdirs) =
    List.map (fun f => ([], f)) (List.filter k files) ++ paths_below k subdirs.
Proof. reflexivity. Qed.

(** A path found below the subdirectories starts with the name of one of
    them. *)
Lemma paths_below_head k (l : list (string * tree)) (p : list string * string) :
  p ∈ paths_below k l →
  ∃ d sub rest, (d, sub) ∈ l ∧ p = (d :: rest, snd p) ∧
                (rest, snd p) ∈ kept_paths k sub.
Proof.
  induction l as [|[d sub] l' IH]; simpl.
  - by intros ?%elem_of_nil.
  - intros [Hp|Hp]%elem_of_app.
    + destruct (directory_filter d _); [|by apply elem_of_nil in Hp].
      apply list_elem_of_In, in_map_iff in Hp as ([rest f] & <- & Hq%list_elem_of_In).
      exists d, sub, rest. split; [left | done].
    + destruct (IH Hp) as (d' & sub' & rest & ? & ? & ?).
      exists d', sub', rest. split; [by right | done].
Qed.

(** Every kept path is a file of the tree that the verdict keeps. *)
Lemma kept_paths_spec (k : string → bool) (t : tree) :
  ∀ rel f, (rel, f) ∈ kept_paths k t → file_at t rel f ∧ k f = true.
Proof.
  induction t as [files subdirs IHsub] using tree_induction.
  intros rel f. rewrite kept_paths_unfold, elem_of_app. intros [Hp | Hp].
  - apply list_elem_of_In, in_map_iff in Hp as (g & [= <- <-] & [Hf Hk]%filter_In).
    split; [constructor; by apply list_elem_of_In | done].
  - apply paths_below_head in Hp as (d & sub & rest & Hin & [= ->] & Hrest).
    simpl in Hrest. rewrite Forall_forall in IHsub.
    destruct (IHsub (d, sub) Hin rest f Hrest) as [Hat Hk].
    split; [by econstructor | done].
Qed.

Lemma kept_paths_NoDup (k : string → bool) (t : tree) :
  distinct_names t → NoDup (kept_paths k t).
Proof.
  induction t as [files subdirs IHsub] using tree_induction.
  simpl distinct_names. intros (Hfiles & Hdirs & Hsubs).
  rewrite kept_paths_unfold. apply NoDup_app. split; [|split].
  - apply NoDup_map_on; [by intros x y _ _ [= ->] |].
    by apply NoDup_ListNoDup, List.NoDup_filter, NoDup_ListNoDup.
  - intros p Hp Hq. apply list_elem_of_In, in_map_iff in Hp as (f & <- & _).
    by apply paths_below_head in Hq as (d & sub & rest & _ & [=] & _).
  - clear Hfiles.
    induction IHsub as [|[d sub] l' Hsub _ IHl']; simpl in *; [constructor|].
    destruct Hsubs as [Hsub1 Hsubs]. apply NoDup_cons in Hdirs as [Hd Hdirs].
    apply NoDup_app. split; [|split].
    + destruct (directory_filter d _); [|constructor].
      apply NoDup_map_on; [|by apply Hsub].
      by intros [a b] [a' b'] _ _ [= -> ->].
    + intros p Hp Hq. destruct (directory_filter d _); [|by apply elem_of_nil in Hp].
      apply list_elem_of_In, in_map_iff in Hp as (q & <- & _).
      apply paths_below_head in Hq as (d' & sub' & rest & Hin & [= <- _] & _).
      apply Hd. apply list_elem_of_In, in_map_iff. exists (d, sub').
      split; [done | by apply list_elem_of_In].
    + by apply IHl'.
Qed.

(** The names of the default format: those of the kept files, then the
    manifest. *)
Lemma default_names_spec (S : gset string) (N root : string) (T : tree) (x : string) :
  wf_tree T = true →
  x ∈ List.map arcname (kept_entries (keep S) "default" N root [] T)
        ++ ["MAR-INF/MANIFEST.json"] →
  Py.startswith x "/" = false.
Proof.
  intros Hwf [Hx | ->%list_elem_of_singleton]%elem_of_app; [|reflexivity].
  apply list_elem_of_In, in_map_iff in Hx as (e & <- & He%list_elem_of_In).
  apply kept_entries_spec in He as (rel & f & Hat & _ & _ & ->).
  rewrite add_file_default.
  destruct (wf_tree_file_at _ _ _ Hat Hwf) as [Hrel Hf].
  by apply relpath_below_not_absolute.
Qed.

Lemma default_names_NoDup (S : gset string) (N root : string) (T : tree) :
  wf_tree T = true → distinct_names T →
  NoDup (List.map arcname (kept_entries (keep S) "default" N root [] T)
           ++ ["MAR-INF/MANIFEST.json"]).
Proof.
  intros Hwf Hdistinct. rewrite kept_entries_paths, List.map_map.
  assert (∀ rel f, (rel, f) ∈ kept_paths (keep S) T →
            Forall (fun p => Py.has_char "/" p = false) rel ∧
            Py.has_char "/" f = false ∧ f ≠ "MANIFEST.json") as Hvalid.
  { intros rel f [Hat Hk]%kept_paths_spec.
    destruct (wf_tree_file_at _ _ _ Hat Hwf) as [Hrel Hf].
    split; [|split].
    - eapply Forall_impl; [exact Hrel|]. intros p. apply valid_filename_no_sep.
    - by apply valid_filename_no_sep.
    - apply keep_iff in Hk. apply Hk. }
  apply NoDup_app. split; [|split].
  - apply NoDup_map_on; [|by apply kept_paths_NoDup].
    intros [rel f] [rel' f'] Hp Hq. unfold entry_of. rewrite !add_file_default.
    simpl. intros Heq.
    destruct (Hvalid _ _ Hp) as (Hrel & Hf & _).
    destruct (Hvalid _ _ Hq) as (Hrel' & Hf' & _).
    apply (f_equal OsPath.components) in Heq.
    rewrite !components_relpath_below in Heq by done.
    by apply app_inj_tail in Heq as [-> ->].
  - intros name Hname ->%list_elem_of_singleton.
    apply list_elem_of_In, in_map_iff in Hname as ([rel f] & Heq & Hp%list_elem_of_In).
    unfold entry_of in Heq. rewrite add_file_default in Heq. simpl in Heq.
    destruct (Hvalid _ _ Hp) as (Hrel & Hf & Hne).
    apply (f_equal OsPath.basename) in Heq.
    rewrite basename_relpath_below in Heq by done. by apply Hne.
  - apply NoDup_singleton.
Qed.

Lemma archive_default_members
    (can_write : string → bool) (export_file N model_path : string) (T : tree)
    (files_to_exclude : list string) (manifest : string) :
  can_write (get_archive_export_path export_file N "default") = true →
  archive can_write export_file N model_path T files_to_exclude manifest "default"
    = ([], Return (Some (Archive (get_archive_export_path export_file N "default")
         (kept_entries (keep (list_to_set files_to_exclude)) "default" N model_path [] T
            ++ [Entry "MAR-INF/MANIFEST.json" (FromText manifest)])))).
Proof.
  intros Hcw. unfold archive. simpl. rewrite Hcw. by rewrite archive_dir_entries.
Qed.

Lemma archive_tgz_members
    (can_write : string → bool) (export_file N model_path : string) (T : tree)
    (files_to_exclude : list string) (manifest : string) :
  can_write (get_archive_export_path export_file N "tgz") = true →
  archive can_write export_file N model_path T files_to_exclude manifest "tgz"
    = ([], Return (Some (Archive (get_archive_export_path export_file N "tgz")
         (List.map (wrap_entry N)
            (kept_entries (keep (list_to_set files_to_exclude)) "default" N model_path [] T
               ++ [Entry "MAR-INF/MANIFEST.json" (FromText manifest)]))))).
Proof.
  intros Hcw. unfold archive. rewrite join3_nested. simpl. rewrite Hcw.
  by rewrite List.map_app, archive_dir_entries, kept_entries_wrap.
Qed.

(** X16: when no directory of the source lists a name twice, no two entries of
    the archive have the same name, the manifest entry included: in the
    default format, and in the tgz format for a model name that passed the
    name check. *)
Theorem archive_names_distinct
    (can_write : string → bool) (export_file N model_path : string) (T : tree)
    (files_to_exclude : list string) (manifest fmt : string) :
  wf_tree T = true → distinct_names T →
  fmt = "default" ∨ (fmt = "tgz" ∧ check_model_name_regex_or_exit N = Return tt) →
  can_write (get_archive_export_path export_file N fmt) = true →
  ∃ members,
    archive can_write export_file N model_path T files_to_exclude manifest fmt
      = ([], Return (Some (Archive (get_archive_export_path export_file N fmt)
                             members))) ∧
    NoDup (List.map arcname members).
Proof.
  intros Hwf Hdistinct [-> | [-> _]] Hcw.
  - rewrite archive_default_members by done. eexists. split; [reflexivity|].
    rewrite List.map_app. by apply default_names_NoDup.
  - rewrite archive_tgz_members by done. eexists. split; [reflexivity|].
    rewrite List.map_map.
    change (fun e => arcname (wrap_entry N e)) with (fun e => OsPath.join N (arcname e)).
    rewrite <- (List.map_map arcname (OsPath.join N)), List.map_app.
    destruct (join_shape N) as (sep & _ & Hjoin).
    apply NoDup_map_on; [|by apply default_names_NoDup].
    intros x y Hx%(default_names_spec _ _ _ _ _ Hwf) Hy%(default_names_spec _ _ _ _ _ Hwf).
    rewrite !Hjoin by done. by intros ?%append_inj_l%append_inj_l.
Qed.

Lemma archive_names_distinct_witness :
  ∃ members,
    archive (fun _ => true) "/out" "mymodel" "/src" sample_tree ["net.onnx"] "{}" "tgz"
      = ([], Return (Some (Archive "/out/mymodel.tar.gz" members))) ∧
    NoDup (List.map arcname members).
Proof.
  apply (archive_names_distinct (fun _ => true) "/out" "mymodel" "/src"
           sample_tree ["net.onnx"] "{}" "tgz").
  - reflexivity.
  - simpl. repeat split; by apply (bool_decide_unpack _).
  - right. split; reflexivity.
  - reflexivity.
Defined.

(** ** The two formats *)


